(** * Stock viewer: the range filter and the dashboard callbacks

    A shallow embedding of [src/dashboard/time_filtering.py] (the range
    filter [filter_time]) and of the two data callbacks of [src/main.py]
    ([filter_df] and [highest_lowest_value]), with the properties of the
    design document stated over them.

    The program is written against pandas, dateutil and the Python
    [datetime] module.  The parts of those libraries the four lines of
    [filter_time] go through are written out here as the libraries document
    them:
    - a pandas [Timestamp] is a signed 64-bit count of nanoseconds since
      1970-01-01T00:00 ([Timestamp.min] is 1677-09-21T00:12:43.145224193);
    - a [datetime.date] is a day of the proleptic Gregorian calendar between
      0001-01-01 and 9999-12-31, and leaving that range raises
      [OverflowError];
    - a [date] used as a bound of a [.loc] slice on a [DatetimeIndex] is
      taken as the [Timestamp] at midnight of that date, and both bounds of
      a label slice are inclusive. *)

From Stdlib Require Import ZArith QArith Qround Qminmax Lia Lqa String Ascii.
From Stdlib Require Import DecimalString Decimal DecimalN DecimalPos.
From Stdlib Require DecimalZ.
From stdpp Require Import base decidable option list sorting gmap strings.

Local Open Scope Z_scope.

(** ** Exceptions *)

(** A Python call either returns a value or raises; an exception is
    identified by the name of its class. *)
Inductive result (A : Type) : Type :=
  | Ok (a : A)
  | Raise (exc : string).
Arguments Ok {A} a.
Arguments Raise {A} exc.

Definition result_bind {A B} (f : A → result B) (m : result A) : result B :=
  match m with
  | Ok a => f a
  | Raise e => Raise e
  end.

#[global] Instance result_ret : MRet result := λ A a, Ok a.
#[global] Instance result_mbind : MBind result := λ A B f m, result_bind f m.

(** ** Dates and instants *)

Module Calendar.

(** Nanoseconds in a calendar day. *)
Definition NS_PER_DAY : Z := 86400 * 1000000000.

(** [Timestamp.min.value] and [Timestamp.max.value]; the least int64 is
    pandas' [NaT]. *)
Definition Timestamp_min : Z := - (2 ^ 63 - 1).
Definition Timestamp_max : Z := 2 ^ 63 - 1.

(** A calendar date, as its number of days since 1970-01-01
    ([date.toordinal() - 719163]). *)
Definition date_min : Z := 1 - 719163.        (* 0001-01-01 *)
Definition date_max : Z := 3652059 - 719163.  (* 9999-12-31 *)

(** [Timestamp.date()]: the clock is dropped, the date is kept. *)
Definition date (t : Z) : Z := t `div` NS_PER_DAY.

(** [Timestamp(d)] for a [datetime.date]: midnight of that day.  When
    int64 nanoseconds cannot hold it the cast fails; the exception
    written here, [OutOfBoundsDatetime], is that of pandas 1.x, and no
    statement below depends on which exception it is. *)
Definition midnight (d : Z) : Z := d * NS_PER_DAY.

Definition Timestamp_of_date (d : Z) : result Z :=
  if decide (Timestamp_min ≤ midnight d ≤ Timestamp_max)
  then Ok (midnight d)
  else Raise "OutOfBoundsDatetime".

(** [d - relativedelta(days = n)]: dateutil adds
    [timedelta(days = -n)] to the date, and [date.__add__] raises
    [OverflowError] outside [date.min .. date.max]. *)
Definition sub_days (d n : Z) : result Z :=
  if decide (date_min ≤ d - n ≤ date_max)
  then Ok (d - n)
  else Raise "OverflowError".

(** The earliest day whose midnight is a [Timestamp]: 1677-09-22. *)
Definition first_midnight_day : Z := -106751.

End Calendar.

(** ** Records and frames *)

(** One row of a stock frame: the index entry and the columns of the data
    files, [timestamp,open,high,low,close,volume].  A price is the exact
    rational value of the float64 the frame stores. *)
Record row : Type := Row {
  timestamp : Z;
  open : Q;
  high : Q;
  low : Q;
  close : Q;
  volume : Z
}.

(** A frame is the sequence of its rows, in frame order. *)
Abbreviation frame := (list row).

(** Order of the index. *)
Definition index_le (r1 r2 : row) : Prop := timestamp r1 ≤ timestamp r2.

#[global] Instance index_le_dec r1 r2 : Decision (index_le r1 r2).
Proof. unfold index_le. apply _. Defined.

#[global] Instance index_le_trans : Transitive index_le.
Proof. unfold index_le. intros x y z. lia. Qed.

#[global] Instance index_le_total : Total index_le.
Proof. unfold index_le. intros x y. lia. Qed.

(** ** The range filter, [src/dashboard/time_filtering.py] *)

(** [df.index[0]]: position 0 of an empty index raises [IndexError]. *)
Definition index_0 (df : frame) : result Z :=
  match df with
  | [] => Raise "IndexError"
  | r :: _ => Ok (timestamp r)
  end.

(** [df.sort_index()]: the rows in ascending order of the index.  pandas
    leaves the relative order of rows with equal index entries to the sort
    kind; the merge sort used here fixes one such order, and nothing below
    depends on which. *)
Definition sort_index (df : frame) : frame := merge_sort index_le df.

(** [searchsorted] on a monotonic increasing index: the position of the
    first entry that is not before ([side = left]) or that is after
    ([side = right]) the label. *)
Fixpoint searchsorted_left (df : frame) (label : Z) : nat :=
  match df with
  | [] => O
  | r :: df' =>
      if decide (timestamp r < label) then S (searchsorted_left df' label) else O
  end.

Fixpoint searchsorted_right (df : frame) (label : Z) : nat :=
  match df with
  | [] => O
  | r :: df' =>
      if decide (timestamp r ≤ label) then S (searchsorted_right df' label) else O
  end.

(** [df.loc[start:stop]] with two [datetime.date] bounds on a monotonic
    increasing [DatetimeIndex]: each date is cast to the [Timestamp] at its
    midnight, the two positions are searched, and the rows between them are
    returned; the slice is empty when the positions cross. *)
Definition loc_dates (df : frame) (start stop : Z) : result frame :=
  lo ← Calendar.Timestamp_of_date start;
  hi ← Calendar.Timestamp_of_date stop;
  let i := searchsorted_left df lo in
  let j := searchsorted_right df hi in
  Ok (take (j - i)%nat (drop i df)).

(** [filter_time(df, days)]. *)
Definition filter_time (df : frame) (days : Z) : result frame :=
  t0 ← index_0 df;
  let last_day := Calendar.date t0 in
  start_day ← Calendar.sub_days last_day days;
  loc_dates (sort_index df) start_day last_day.

(** The rows of a frame whose index entry lies between two instants, both
    included. *)
Definition in_window (lo hi : Z) (r : row) : Prop := lo ≤ timestamp r ≤ hi.

#[global] Instance in_window_dec lo hi r : Decision (in_window lo hi r).
Proof. unfold in_window. apply _. Defined.

(** Every index entry of a frame is a [Timestamp]. *)
Definition is_Timestamp (t : Z) : Prop :=
  Calendar.Timestamp_min ≤ t ≤ Calendar.Timestamp_max.

Definition valid_frame (df : frame) : Prop :=
  Forall (λ r, is_Timestamp (timestamp r)) df.

#[global] Instance valid_frame_dec df : Decision (valid_frame df).
Proof. unfold valid_frame, is_Timestamp. apply _. Defined.

(** The calendar date of a row. *)
Definition row_date (r : row) : Z := Calendar.date (timestamp r).

(** The anchor of the filter: the date of the first row in frame order. *)
Definition last_day (df : frame) : Z :=
  match df with
  | [] => 0
  | r :: _ => row_date r
  end.

(** The first row in frame order is the most recent one. *)
Definition most_recent_first (df : frame) : Prop :=
  match df with
  | [] => True
  | r0 :: _ => Forall (λ r, timestamp r ≤ timestamp r0) df
  end.

(** The window of a call, as instants: the midnights of the start day and
    of the anchor day. *)
Definition window_lo (df : frame) (days : Z) : Z :=
  Calendar.midnight (last_day df - days).
Definition window_hi (df : frame) : Z := Calendar.midnight (last_day df).

(** ** Frames as objects

    In the program a frame is an object: the caller of [filter_time] keeps a
    reference to the frame it passes, and the methods called on it
    ([sort_index], [.loc]) hand back new frame objects.  [Obj] runs the
    same four lines over a store of frame objects, so that what happens to
    the caller's frame can be stated. *)

Module Obj.

(** The store: object identity to frame contents. *)
Abbreviation store := (gmap nat frame).

(** A computation reads and extends the store and returns or raises. *)
Definition M (A : Type) : Type := store → store * result A.

#[global] Instance M_ret : MRet M := λ A a σ, (σ, Ok a).
#[global] Instance M_bind : MBind M := λ A B f m σ,
  match m σ with
  | (σ', Ok a) => f a σ'
  | (σ', Raise e) => (σ', Raise e)
  end.

(** A value or exception computed without the store. *)
Definition lift {A} (m : result A) : M A := λ σ, (σ, m).

(** The frame behind a reference.  A reference the store does not hold is
    not a frame of the program; reading it is reported as [NameError]. *)
Definition read (o : nat) : M frame := λ σ,
  match σ !! o with
  | Some df => (σ, Ok df)
  | None => (σ, Raise "NameError")
  end.

(** A new frame object. *)
Definition new (df : frame) : M nat := λ σ,
  let o := fresh (dom σ) in (<[o := df]> σ, Ok o).

(** [df.index[0]] *)
Definition index_0 (df : nat) : M Z :=
  S ← read df; lift (index_0 S).

(** [df.sort_index()], with its default [inplace=False]: a new object. *)
Definition sort_index (df : nat) : M nat :=
  S ← read df; new (sort_index S).

(** [df.loc[start:stop]]: a new object holding the slice. *)
Definition loc_dates (df : nat) (start stop : Z) : M nat :=
  S ← read df; R ← lift (loc_dates S start stop); new R.

(** [filter_time(df, days)]; the assignment to [df] rebinds the local
    name and leaves the caller's reference where it was. *)
Definition filter_time (df : nat) (days : Z) : M nat :=
  t0 ← index_0 df;
  let last_day := Calendar.date t0 in
  start_day ← lift (Calendar.sub_days last_day days);
  sorted ← sort_index df;
  loc_dates sorted start_day last_day.

End Obj.

(** ** Formatting and reading of the labels *)

Module Format.
Local Open Scope Q_scope.

(** Rounding to the nearest integer, ties to the even one: the rounding
    of the [.1f] conversion, which works on the exact value of the
    float. *)
Definition round_half_even (x : Q) : Z :=
  let n := Qfloor x in
  match Qcompare (x - inject_Z n) (1 # 2) with
  | Lt => n
  | Gt => (n + 1)%Z
  | Eq => if Z.even n then n else (n + 1)%Z
  end.

(** The number of tenths the conversion shows. *)
Definition tenths (x : Q) : Z := round_half_even (x * 10).

(** A natural number in decimal digits. *)
Definition digits (n : Z) : string :=
  NilZero.string_of_uint (N.to_uint (Z.to_N n)).

(** [f"{x:.1f}"] for a finite [x]: sign, integer part, point, one
    decimal. *)
Definition format_1f (x : Q) : string :=
  let t := Z.abs (tenths x) in
  (if Qle_bool 0 x then "" else "-")
    +:+ digits (t `div` 10) +:+ "." +:+ digits (t `mod` 10).

(** The same for the result of a reduction, which is NaN on an empty
    column. *)
Definition format_float (v : option Q) : string :=
  match v with
  | Some x => format_1f x
  | None => "nan"
  end.

(** The text before the first occurrence of a character, and the text
    after it. *)
Fixpoint split_on (c : ascii) (s : string) : string * string :=
  match s with
  | EmptyString => (EmptyString, EmptyString)
  | String a s' =>
      if Ascii.eqb a c then (EmptyString, s')
      else let '(p, q) := split_on c s' in (String a p, q)
  end.

(** Decimal digits. *)
Definition is_digit (a : ascii) : bool :=
  match a with
  | "0" | "1" | "2" | "3" | "4" | "5" | "6" | "7" | "8" | "9" => true
  | _ => false
  end%char.

Fixpoint all_digits (s : string) : bool :=
  match s with
  | EmptyString => true
  | String a s' => is_digit a && all_digits s'
  end.

(** The number a label of the form [-]ddd.d $ displays. *)
Definition decimal_value (neg : bool) (s : string) : option Q :=
  let '(ip, rest) := split_on "." s in
  let '(fp, suffix) := split_on " " rest in
  if decide (suffix = "$" ∧ String.length fp = 1%nat) then
    match NilZero.uint_of_string ip, NilZero.uint_of_string fp with
    | Some i, Some f =>
        let t := (10 * Z.of_uint i + Z.of_uint f)%Z in
        Some ((if neg then - t else t)%Z # 10)
    | _, _ => None
    end
  else None.

Definition label_value (label : string) : option Q :=
  match label with
  | String a s' =>
      if Ascii.eqb a "-" then decimal_value true s'
      else decimal_value false label
  | EmptyString => None
  end.

End Format.

(** ** The callbacks, [src/main.py] *)

(** [d[k]] on a dict. *)
Definition dict_get `{Countable K} {V} (d : gmap K V) (k : K) : result V :=
  match d !! k with
  | Some v => Ok v
  | None => Raise "KeyError"
  end.

(** [enumerate(l)] *)
Definition enumerate {A} (l : list A) : list (Z * A) :=
  imap (λ i x, (Z.of_nat i, x)) l.

(** [symbol_dict = dict(AAPL="Apple", NVDA="Nvidia", TSLA="Tesla", IBM="IBM")] *)
Definition symbol_dict : list (string * string) :=
  [("AAPL", "Apple"); ("NVDA", "Nvidia"); ("TSLA", "Tesla"); ("IBM", "IBM")].

(** [Series.max()] and [Series.min()] of a float column: NaN when the
    column is empty. *)
Definition series_max (col : list Q) : option Q :=
  match col with
  | [] => None
  | x :: col' => Some (foldl Qmax x col')
  end.

Definition series_min (col : list Q) : option Q :=
  match col with
  | [] => None
  | x :: col' => Some (foldl Qmin x col')
  end.

(** [dff[ohlc]]: the column of that name.  The volume column holds
    integers, given here by their exact value, which is also the value the
    program formats as long as it is below 2^53. *)
Definition column (ohlc : string) : result (row → Q) :=
  if decide (ohlc = "open") then Ok open
  else if decide (ohlc = "high") then Ok high
  else if decide (ohlc = "low") then Ok low
  else if decide (ohlc = "close") then Ok close
  else if decide (ohlc = "volume") then Ok (λ r, inject_Z (volume r))
  else Raise "KeyError".

Section callbacks.
(** The collaborators that are not in the two source files: the loader
    of the data files ([StockDataLocal.stock_dataframe], which gives the
    daily and the intraday frame of a symbol) and the JSON coder of
    pandas ([DataFrame.to_json], [pd.read_json]). *)
Context {json : Type}.
Variable stock_dataframe : string → frame * frame.
Variable to_json : frame → result json.
Variable read_json : json → result frame.

(** [df_dict = {symbol: stock_data_object.stock_dataframe(symbol)
                for symbol in symbol_dict}] *)
Definition df_dict : gmap string (frame * frame) :=
  list_to_map ((λ kv, (kv.1, stock_dataframe kv.1)) <$> symbol_dict).

(** [filter_df(stock, time_index)] *)
Definition filter_df (stock : string) (time_index : Z) : result json :=
  '(dff_daily, dff_intraday) ← dict_get df_dict stock;
  let dff := if decide (time_index ≤ 2) then dff_intraday else dff_daily in
  let days : gmap Z Z :=
    list_to_map (enumerate [1; 7; 30; 90; 365; 5 * 365]) in
  dff ← (if decide (time_index = 6) then Ok dff
         else d ← dict_get days time_index; filter_time dff d);
  to_json dff.

(** [highest_lowest_value(json_df, ohlc)] *)
Definition highest_lowest_value (json_df : json) (ohlc : string)
  : result (string * string) :=
  dff ← read_json json_df;
  col ← column ohlc;
  let highest_value := Format.format_float (series_max (col <$> dff)) +:+ " $" in
  let lowest_value := Format.format_float (series_min (col <$> dff)) +:+ " $" in
  Ok (highest_value, lowest_value).
End callbacks.

(** The day counts of the window selection as the design document lists
    them, for the indices 0 to 5; [filter_df] is compared with this
    table. *)
Definition window_days_spec (i : Z) : Z :=
  match i with
  | 0 => 1
  | 1 => 7
  | 2 => 30
  | 3 => 90
  | 4 => 365
  | 5 => 1825
  | _ => 0
  end.

(** ** Sample data *)

(** A row at hour [h] of day [d], all four prices equal to [c]. *)
Definition bar (d h : Z) (c : Q) : row :=
  Row (Calendar.midnight d + h * 3600000000000) c c c c 0.

(** 2022-01-03 is day 18995.  An hourly frame as the data files give it,
    most recent row first: two rows on 2022-01-03 and two on the day
    before. *)
Definition intraday_sample : frame :=
  [bar 18995 20 4; bar 18995 19 3; bar 18994 20 2; bar 18994 19 1].

(** A daily frame, most recent row first, stamped at midnight. *)
Definition daily_sample : frame :=
  [bar 18995 0 30; bar 18994 0 5; bar 18993 0 20; bar 18992 0 10].

(** ** The controls and the chart callback, [src/main.py] *)

(** One entry of an options list, [{"label": ..., "value": ...}]. *)
Record option_entry : Type := Option_entry {
  label : string;
  value : string
}.

(** [stock_options_dropdown]: one entry per item of [symbol_dict], the
    company name as label and the symbol as value. *)
Definition stock_options_dropdown : list option_entry :=
  (λ '(symbol, name), Option_entry name symbol) <$> symbol_dict.

(** [str.capitalize()] on ASCII text: the first character in upper case,
    the others in lower case. *)
Definition ascii_upper (a : ascii) : ascii :=
  let n := nat_of_ascii a in
  if (97 <=? n)%nat && (n <=? 122)%nat then ascii_of_nat (n - 32) else a.

Definition ascii_lower (a : ascii) : ascii :=
  let n := nat_of_ascii a in
  if (65 <=? n)%nat && (n <=? 90)%nat then ascii_of_nat (n + 32) else a.

Fixpoint lower (s : string) : string :=
  match s with
  | EmptyString => EmptyString
  | String a s' => String (ascii_lower a) (lower s')
  end.

Definition capitalize (s : string) : string :=
  match s with
  | EmptyString => EmptyString
  | String a s' => String (ascii_upper a) (lower s')
  end.

(** [ohlc_options] *)
Definition ohlc_options : list option_entry :=
  (λ option, Option_entry (capitalize option) option)
    <$> ["open"; "high"; "low"; "close"].

(** [slider_marks]; the slider has [min=0], [max=6] and [step=None], so
    its positions are the keys of the marks. *)
Definition slider_marks : gmap Z string :=
  list_to_map (enumerate
    ["1 day"; "1 week"; "1 month"; "3 months"; "1 year"; "5 years"; "Max"]).

Section chart.
(** [px.line] of plotly express is not in the source files; it is taken
  as it is called: the frame, the x values, the name of the y column, the
  axis labels and the title. *)
Context {json figure : Type}.
Variable read_json : json → result frame.
Variable px_line :
frame → list Z → string → list (string * string) → string → result figure.

(** [update_graph(json_df, stock, ohlc)]; the arguments of [px.line] are
  evaluated before the call, the title [symbol_dict[stock]] last. *)
Definition update_graph (json_df : json) (stock ohlc : string)
: result figure :=
dff ← read_json json_df;
let x := timestamp <$> dff in
let labels := [("close", "Stock value (us-$)")] in
title ← dict_get (list_to_map symbol_dict : gmap string string) stock;
px_line dff x ohlc labels title.
End chart.

(** ** The JSON coder of pandas, as the callbacks call it

    [filter_df] ends with [dff.to_json()] and the two other callbacks begin
    with [pd.read_json(json_df)], both with the defaults of pandas:
    [orient='columns'], [date_format='epoch'], [date_unit='ms'] and
    [double_precision=10] on writing, conversion of the axes and detection
    of the timestamp unit on reading. *)

Module Json.

(** The text [to_json] writes is an object with one member per column;
    each member is an object with one member per row, whose key is the
    index entry in epoch milliseconds, in decimal digits, and whose value
    is the number of the cell.  A number is kept by the value of its
    decimal text. *)
Abbreviation json := (list (string * list (string * Q))).

Definition NS_PER_MS : Z := 1000000.

(** The epoch milliseconds of a [Timestamp]; what is below a millisecond
    is dropped. *)
Definition epoch_ms (t : Z) : Z := t `div` NS_PER_MS.

(** An integer in decimal digits, and back. *)
Definition key_of_ms (ms : Z) : string := NilZero.string_of_int (Z.to_int ms).

Definition ms_of_key (k : string) : option Z :=
  Z.of_int <$> NilZero.int_of_string k.

(** A float cell is written with ten decimal places. *)
Definition decimal_10 (x : Q) : Q :=
  Format.round_half_even (x * inject_Z 10000000000) # 10000000000.

(** The object of one column. *)
Definition column_object (df : frame) (cell : row → Q) : list (string * Q) :=
  (λ r, (key_of_ms (epoch_ms (timestamp r)), cell r)) <$> df.

(** [df.to_json()]; with [orient='columns'] a frame whose index is not
    unique is refused with [ValueError]. *)
Definition to_json (df : frame) : result json :=
  if decide (NoDup (timestamp <$> df)) then
    Ok [("open", column_object df (λ r, decimal_10 (open r)));
        ("high", column_object df (λ r, decimal_10 (high r)));
        ("low", column_object df (λ r, decimal_10 (low r)));
        ("close", column_object df (λ r, decimal_10 (close r)));
        ("volume", column_object df (λ r, inject_Z (volume r)))]
  else Raise "ValueError".

(** The member of an object as the decoder keeps it in a dict: a key that
    occurs again keeps its place and takes the later value. *)
Fixpoint last_value (k : string) (l : list (string * Q)) : option Q :=
  match l with
  | [] => None
  | (k', v) :: l' =>
      match last_value k l' with
      | Some v' => Some v'
      | None => if decide (k' = k) then Some v else None
      end
  end.

Fixpoint dict_members (l : list (string * Q)) : list (string * Q) :=
  match l with
  | [] => []
  | (k, v) :: l' =>
      (k, default v (last_value k l'))
        :: filter (λ kv, kv.1 ≠ k) (dict_members l')
  end.

(** The column of a name.  A text without one of the five columns is not
    a frame of this program; it is reported as [ValueError]. *)
Fixpoint member (j : json) (name : string) : result (list (string * Q)) :=
  match j with
  | [] => Raise "ValueError"
  | (n, o) :: j' => if decide (n = name) then Ok (dict_members o) else member j' name
  end.

(** The index entry of a key: the epoch milliseconds it spells, as a
    [Timestamp].  A key that spells no integer is outside the frames of
    this program and is reported as [ValueError]. *)
Definition key_timestamp (k : string) : result Z :=
  match ms_of_key k with
  | Some ms =>
      if decide (Calendar.Timestamp_min ≤ ms * NS_PER_MS ≤ Calendar.Timestamp_max)
      then Ok (ms * NS_PER_MS)
      else Raise "OutOfBoundsDatetime"
  | None => Raise "ValueError"
  end.

(** The rows of five column objects over the same keys.  The number of a
    cell is read as the decimal written (the binary rounding of the
    decoder, far below the tenth decimal for prices, is not written out),
    the volume as the integer written. *)
Fixpoint read_rows (o h l c v : list (string * Q)) : result frame :=
  match o, h, l, c, v with
  | [], [], [], [], [] => Ok []
  | (k, x1) :: o', (k2, x2) :: h', (k3, x3) :: l', (k4, x4) :: c',
    (k5, x5) :: v' =>
      if decide (k2 = k ∧ k3 = k ∧ k4 = k ∧ k5 = k) then
        t ← key_timestamp k;
        rows ← read_rows o' h' l' c' v';
        Ok (Row t x1 x2 x3 x4 (Qfloor x5) :: rows)
      else Raise "ValueError"
  | _, _, _, _, _ => Raise "ValueError"
  end.

(** [pd.read_json(json_df)] *)
Definition read_json (j : json) : result frame :=
  o ← member j "open";
  h ← member j "high";
  l ← member j "low";
  c ← member j "close";
  v ← member j "volume";
  read_rows o h l c v.

End Json.

(** The rows for which the round trip is stated: the index entry is a
    whole number of milliseconds, not before 1971-01-01 and a [Timestamp];
    the prices are below 10^15 in size. *)
Definition round_trip_row (r : row) : Prop :=
  timestamp r `mod` Json.NS_PER_MS = 0
  ∧ 31536000000000000 ≤ timestamp r ≤ Calendar.Timestamp_max
  ∧ Forall (λ x, - (1000000000000000 # 1) <= x <= 1000000000000000 # 1)%Q
      [open r; high r; low r; close r].

(** What comes back for a row: the same index entry and volume, and each
    price to the tenth decimal. *)
Definition reads_back (r r' : row) : Prop :=
  timestamp r' = timestamp r
  ∧ volume r' = volume r
  ∧ Forall2 (λ x x', - (1 # 10000000000) <= x' - x <= 1 # 10000000000)%Q
      [open r; high r; low r; close r]
      [open r'; high r'; low r'; close r'].

(** ** Arithmetic of days and instants *)

Section time_facts.
Import Calendar.

Lemma NS_PER_DAY_eq : NS_PER_DAY = 86400000000000.
Proof. reflexivity. Qed.

Lemma Timestamp_min_eq : Timestamp_min = -9223372036854775807.
Proof. reflexivity. Qed.

Lemma Timestamp_max_eq : Timestamp_max = 9223372036854775807.
Proof. reflexivity. Qed.

Lemma midnight_le_iff d t : midnight d ≤ t ↔ d ≤ date t.
Proof. unfold midnight, date. rewrite NS_PER_DAY_eq. Z.to_euclidean_division_equations. lia. Qed.

Lemma le_midnight_date t d : t ≤ midnight d → date t ≤ d.
Proof. unfold midnight, date. rewrite NS_PER_DAY_eq. Z.to_euclidean_division_equations. lia. Qed.

Lemma date_lt_midnight t d : date t < d → t < midnight d.
Proof. unfold midnight, date. rewrite NS_PER_DAY_eq. Z.to_euclidean_division_equations. lia. Qed.

Lemma date_midnight d : date (midnight d) = d.
Proof. unfold midnight, date. rewrite NS_PER_DAY_eq. Z.to_euclidean_division_equations. lia. Qed.

Lemma midnight_date_le t : midnight (date t) ≤ t.
Proof. by apply midnight_le_iff. Qed.

Lemma midnight_mono d1 d2 : d1 ≤ d2 → midnight d1 ≤ midnight d2.
Proof. unfold midnight. rewrite NS_PER_DAY_eq. Z.to_euclidean_division_equations. lia. Qed.

Lemma date_mono t1 t2 : t1 ≤ t2 → date t1 ≤ date t2.
Proof. unfold date. rewrite NS_PER_DAY_eq. Z.to_euclidean_division_equations. lia. Qed.

Lemma is_Timestamp_date t :
  is_Timestamp t → first_midnight_day - 1 ≤ date t ≤ 106751.
Proof.
  unfold is_Timestamp, date, first_midnight_day.
  rewrite ?NS_PER_DAY_eq, ?Timestamp_min_eq, ?Timestamp_max_eq.
  Z.to_euclidean_division_equations. lia.
Qed.

Lemma Timestamp_of_date_Ok d :
  first_midnight_day ≤ d ≤ 106751 → Timestamp_of_date d = Ok (midnight d).
Proof.
  intros Hd. unfold Timestamp_of_date.
  destruct (decide _) as [|Hn]; [done|]. exfalso. apply Hn.
  unfold midnight, first_midnight_day in *.
  rewrite ?NS_PER_DAY_eq, ?Timestamp_min_eq, ?Timestamp_max_eq.
  Z.to_euclidean_division_equations. lia.
Qed.

Lemma sub_days_Ok d n :
  first_midnight_day ≤ d - n ≤ 106751 → sub_days d n = Ok (d - n).
Proof.
  intros Hd. unfold sub_days.
  destruct (decide _) as [|Hn]; [done|]. exfalso. apply Hn.
  unfold date_min, date_max, first_midnight_day in *. lia.
Qed.

Lemma sub_days_overflow d n :
  d - n < date_min → sub_days d n = Raise "OverflowError".
Proof.
  intros Hd. unfold sub_days. destruct (decide _) as [Hy|]; [lia|done].
Qed.
End time_facts.

(** ** The label slice of a sorted frame *)

Section slice.
Implicit Types (df : frame) (r : row).

Lemma searchsorted_left_0 df lo :
  Forall (λ r, lo ≤ timestamp r) df → searchsorted_left df lo = 0%nat.
Proof.
  destruct 1 as [|r df Hr _]; simpl; [done|].
  destruct (decide _); [lia|done].
Qed.

Lemma filter_window_above df lo hi :
  Forall (λ r, hi < timestamp r) df → filter (in_window lo hi) df = [].
Proof.
  induction 1 as [|r df Hr _ IH]; [done|].
  rewrite filter_cons_False; [done|]. unfold in_window. lia.
Qed.

(** On a sorted frame the positional slice between the two searched
    positions holds the rows of the window, and only them. *)
Lemma loc_slice_filter df lo hi :
  StronglySorted index_le df →
  take (searchsorted_right df hi - searchsorted_left df lo)
       (drop (searchsorted_left df lo) df)
  = filter (in_window lo hi) df.
Proof.
  induction 1 as [|r df Hs IH Hr]; [done|].
  assert (Hge : Forall (λ r', timestamp r ≤ timestamp r') df)
    by (eapply Forall_impl; [exact Hr|done]).
  simpl. destruct (decide (timestamp r < lo)) as [Hlo|Hlo];
    destruct (decide (timestamp r ≤ hi)) as [Hhi|Hhi]; simpl.
  - rewrite IH. rewrite filter_cons_False; [done|]. unfold in_window. lia.
  - symmetry. apply filter_window_above. constructor; [lia|].
    eapply Forall_impl; [exact Hge|]. simpl. lia.
  - rewrite filter_cons_True by (unfold in_window; lia). f_equal.
    rewrite <- IH. rewrite searchsorted_left_0.
    + by rewrite Nat.sub_0_r.
    + eapply Forall_impl; [exact Hge|]. simpl. lia.
  - symmetry. apply filter_window_above. constructor; [lia|].
    eapply Forall_impl; [exact Hge|]. simpl. lia.
Qed.

Lemma sort_index_sorted df : StronglySorted index_le (sort_index df).
Proof. apply StronglySorted_merge_sort; apply _. Qed.

Lemma sort_index_perm df : sort_index df ≡ₚ df.
Proof. apply merge_sort_Permutation. Qed.

Lemma elem_of_sort_index df r : r ∈ sort_index df ↔ r ∈ df.
Proof. by rewrite sort_index_perm. Qed.

Lemma filter_sorted (P : row → Prop) `{!∀ r, Decision (P r)} df :
  StronglySorted index_le df → StronglySorted index_le (filter P df).
Proof.
  induction 1 as [|r df Hs IH Hr]; [constructor|].
  destruct (decide (P r)).
  - rewrite filter_cons_True by done. constructor; [done|].
    rewrite Forall_forall in Hr |- *. intros r' Hr'.
    apply list_elem_of_filter in Hr' as [_ Hr']. by apply Hr.
  - by rewrite filter_cons_False.
Qed.
End slice.

(** ** What [filter_time] returns *)

Section filter_time_facts.
Import Calendar.
Implicit Types (df S R : frame) (r : row) (days : Z).

Lemma loc_dates_Ok df start stop :
  StronglySorted index_le df →
  first_midnight_day ≤ start ≤ 106751 →
  first_midnight_day ≤ stop ≤ 106751 →
  loc_dates df start stop
  = Ok (filter (in_window (midnight start) (midnight stop)) df).
Proof.
  intros Hs H1 H2. unfold loc_dates.
  rewrite !Timestamp_of_date_Ok by done. simpl.
  by rewrite loc_slice_filter.
Qed.

(** When the start day is a day pandas can turn into a [Timestamp], the
    call returns the rows of the sorted frame between the two midnights. *)
Lemma filter_time_returns S days :
  valid_frame S → S ≠ [] → 0 ≤ days →
  first_midnight_day ≤ last_day S - days →
  filter_time S days
  = Ok (filter (in_window (window_lo S days) (window_hi S)) (sort_index S)).
Proof.
  intros Hv Hne Hd Hstart. destruct S as [|r0 S']; [done|].
  apply Forall_cons_1 in Hv as [Hv0 _].
  apply is_Timestamp_date in Hv0.
  unfold filter_time, window_lo, window_hi. simpl in *.
  fold (row_date r0). unfold row_date in *.
  rewrite sub_days_Ok by lia. simpl.
  apply loc_dates_Ok; [apply sort_index_sorted|lia..].
Qed.

(** Before the first day of the calendar there is no start day. *)
Lemma filter_time_overflow S days :
  S ≠ [] → last_day S - days < date_min →
  filter_time S days = Raise "OverflowError".
Proof.
  intros Hne Hd. destruct S as [|r0 S']; [done|].
  unfold filter_time. simpl in *. unfold row_date in *.
  by rewrite sub_days_overflow.
Qed.

(** Whenever the call returns, it returns the rows between the two
    midnights. *)
Lemma filter_time_Ok_inv S days R :
  filter_time S days = Ok R →
  S ≠ [] ∧ R = filter (in_window (window_lo S days) (window_hi S)) (sort_index S).
Proof.
  destruct S as [|r0 S']; [done|]. intros HR. split; [done|].
  unfold filter_time, window_lo, window_hi in *. simpl in *.
  fold (row_date r0) in *.
  unfold sub_days in HR. destruct (decide _); [simpl in HR|done].
  unfold loc_dates, Timestamp_of_date in HR.
  do 2 (destruct (decide _); simpl in HR); try done.
  injection HR as <-. apply loc_slice_filter, sort_index_sorted.
Qed.

Lemma elem_of_filter_time S days R r :
  valid_frame S → S ≠ [] → 0 ≤ days →
  first_midnight_day ≤ last_day S - days →
  filter_time S days = Ok R →
  r ∈ R ↔ r ∈ S ∧ window_lo S days ≤ timestamp r ≤ window_hi S.
Proof.
  intros Hv Hne Hd Hstart. rewrite filter_time_returns by done.
  intros [= <-]. rewrite list_elem_of_filter, elem_of_sort_index.
  unfold in_window. tauto.
Qed.
End filter_time_facts.

(** ** The window in calendar dates *)

Section window_dates.
Import Calendar.
Implicit Types (S R : frame) (r : row) (days : Z).

Lemma in_window_dates S days r :
  window_lo S days ≤ timestamp r ≤ window_hi S →
  last_day S - days ≤ row_date r ≤ last_day S.
Proof.
  unfold window_lo, window_hi, row_date. intros [Hlo Hhi]. split.
  - by apply midnight_le_iff.
  - by apply le_midnight_date.
Qed.

Lemma dates_in_window S days r :
  0 ≤ days →
  last_day S - days ≤ row_date r < last_day S
    ∨ timestamp r = window_hi S →
  window_lo S days ≤ timestamp r ≤ window_hi S.
Proof.
  unfold window_lo, window_hi, row_date. intros Hd [[Hlo Hhi]| ->].
  - split; [by apply midnight_le_iff|].
    apply date_lt_midnight in Hhi. lia.
  - split; [|done]. apply midnight_mono. lia.
Qed.

Lemma filter_time_submseteq S days R :
  valid_frame S → S ≠ [] → 0 ≤ days →
  first_midnight_day ≤ last_day S - days →
  filter_time S days = Ok R →
  R ⊆+ S ∧ StronglySorted index_le R.
Proof.
  intros Hv Hne Hd Hstart. rewrite filter_time_returns by done.
  intros [= <-]. split.
  - etrans; [apply sublist_submseteq, sublist_filter|].
    apply Permutation_submseteq, sort_index_perm.
  - apply filter_sorted, sort_index_sorted.
Qed.
End window_dates.

Ltac frame_facts :=
  repeat match goal with
    | |- valid_frame _ => unfold valid_frame
    | |- most_recent_first _ => hnf
    | |- Forall _ _ => constructor
    | |- is_Timestamp _ => unfold is_Timestamp; vm_compute; split; discriminate
    | |- _ ≠ [] => discriminate
    | |- _ ≤ _ => vm_compute; discriminate
    | |- _ < _ => vm_compute; reflexivity
    | |- _ ≤ _ ≤ _ => split
    | |- _ ≤ _ < _ => split
    end.

(** * The range filter on frames *)

(** The scenario of the design document: daily closes 10, 20, 5 and 30 on
    four consecutive days, most recent row first; a lookback of one day
    returns the rows of the two most recent days. *)
Example filter_time_scenario :
  filter_time daily_sample 1 = Ok [bar 18994 0 5; bar 18995 0 30].
Proof. by vm_compute. Qed.

(** Before 0001-01-01 there is no start day; from 1677-09-22 on the
    start day has a midnight that is a [Timestamp] and the call returns. *)
Example filter_time_start_day_errors :
  filter_time daily_sample 1000000 = Raise "OverflowError"
  ∧ last_day daily_sample - 125746 = Calendar.first_midnight_day
  ∧ filter_time daily_sample 125746 = Ok (reverse daily_sample).
Proof. by vm_compute. Qed.

(** C1, as amended.  For a non-empty frame whose first row is the most
    recent one, and a lookback [days >= 0] whose start day is not before
    1677-09-22 (the first day whose midnight is a [Timestamp]),
    [filter_time] returns rows of the frame, each as often as the frame has
    it at most, in ascending order of the index; every returned row is
    dated within [last_day - days, last_day]; and every row dated within
    [last_day - days, last_day - 1], or stamped at midnight of [last_day],
    is returned. *)
Theorem filter_time_window_rows (S : frame) (days : Z) :
  valid_frame S → S ≠ [] → most_recent_first S → 0 ≤ days →
  Calendar.first_midnight_day ≤ last_day S - days →
  ∃ R, filter_time S days = Ok R
     ∧ R ⊆+ S
     ∧ StronglySorted index_le R
     ∧ (∀ r, r ∈ R → last_day S - days ≤ row_date r ≤ last_day S)
     ∧ (∀ r, r ∈ S →
          last_day S - days ≤ row_date r < last_day S
            ∨ timestamp r = Calendar.midnight (last_day S) →
          r ∈ R).
Proof.
  intros Hv Hne _ Hd Hstart.
  destruct (filter_time S days) as [R|e] eqn:HR;
    [|by rewrite filter_time_returns in HR].
  exists R. split; [done|].
  destruct (filter_time_submseteq S days R) as [Hsub Hsort]; [done..|].
  split; [done|]. split; [done|]. split.
  - intros r Hr. eapply elem_of_filter_time in Hr as [_ Hr]; [|done..].
    by eapply in_window_dates.
  - intros r Hr Hdate. eapply elem_of_filter_time; [done..|].
    split; [done|]. by apply dates_in_window.
Qed.

Lemma filter_time_window_rows_witness :
  ∃ R, filter_time daily_sample 1 = Ok R
     ∧ R ⊆+ daily_sample
     ∧ StronglySorted index_le R
     ∧ (∀ r, r ∈ R →
          last_day daily_sample - 1 ≤ row_date r ≤ last_day daily_sample)
     ∧ (∀ r, r ∈ daily_sample →
          last_day daily_sample - 1 ≤ row_date r < last_day daily_sample
            ∨ timestamp r = Calendar.midnight (last_day daily_sample) →
          r ∈ R).
Proof. apply (filter_time_window_rows daily_sample 1); frame_facts. Defined.

(** C1 as stated fails twice.  With a lookback of a million days the start
    day falls before 0001-01-01 and the call raises.  On an hourly frame
    with [days = 0] the call returns no row, although the only row of the
    frame is dated [last_day]. *)
Lemma filter_time_window_rows_counterexample :
  let S := [bar 18995 20 4] in
  (valid_frame S ∧ S ≠ [] ∧ most_recent_first S)
  ∧ ¬ (∃ R, filter_time S 1000000 = Ok R)
  ∧ ¬ (∃ R, filter_time S 0 = Ok R
          ∧ ∀ r, r ∈ R ↔
              r ∈ S ∧ last_day S - 0 ≤ row_date r ≤ last_day S).
Proof.
  intros S. split; [subst S; repeat split; frame_facts|]. split.
  - intros [R HR]. vm_compute in HR. discriminate.
  - intros [R [HR Hiff]]. vm_compute in HR. injection HR as <-.
    assert (Hin : bar 18995 20 4 ∈ []); [|by apply not_elem_of_nil in Hin].
    apply Hiff. split; [apply list_elem_of_here|].
    vm_compute. split; discriminate.
Qed.

(** C10 names what the code misses.  The anchor is cut to its date, and the
    date, used as the upper bound of the slice, stands for the midnight that
    opens that day: on the hourly sample, with the one-day window of the
    slider, the rows of the anchor day 2022-01-03 are not returned, the
    anchor row itself among them. *)
Theorem filter_time_drops_anchor_day :
  last_day intraday_sample = 18995
  ∧ row_date (bar 18995 20 4) = 18995
  ∧ row_date (bar 18995 19 3) = 18995
  ∧ filter_time intraday_sample 1 = Ok [bar 18994 19 1; bar 18994 20 2].
Proof. by vm_compute. Qed.

(** The same on every frame: a row of the anchor day that is stamped after
    midnight is never returned. *)
Lemma filter_time_after_midnight (S R : frame) (days : Z) (r : row) :
  filter_time S days = Ok R →
  Calendar.midnight (last_day S) < timestamp r →
  r ∉ R.
Proof.
  intros HR Hr. apply filter_time_Ok_inv in HR as [_ ->].
  rewrite list_elem_of_filter. unfold in_window, window_hi. lia.
Qed.

(** C7, as amended.  When the start day is not before 1677-09-22 and
    precedes the date of every row, [filter_time] raises nothing and cuts
    nothing at the lower end: it returns a leading part of the sorted
    frame, which holds every row dated before [last_day] or stamped at
    midnight of [last_day], and no row dated after [last_day]. *)
Theorem filter_time_long_lookback (S : frame) (days : Z) :
  valid_frame S → S ≠ [] →
  Calendar.first_midnight_day ≤ last_day S - days →
  (∀ r, r ∈ S → last_day S - days < row_date r) →
  ∃ R, filter_time S days = Ok R
     ∧ R `prefix_of` sort_index S
     ∧ (∀ r, r ∈ S →
          row_date r < last_day S
            ∨ timestamp r = Calendar.midnight (last_day S) →
          r ∈ R)
     ∧ (∀ r, r ∈ R → row_date r ≤ last_day S).
Proof.
  intros Hv Hne Hstart Hearly.
  assert (Hd : 0 ≤ days).
  { destruct S as [|r0 S']; [done|].
    specialize (Hearly r0 (list_elem_of_here _ _)). simpl in Hearly. lia. }
  assert (Hlo : Forall (λ r, window_lo S days ≤ timestamp r) (sort_index S)).
  { apply Forall_forall. intros r Hr. rewrite elem_of_sort_index in Hr.
    apply midnight_le_iff. specialize (Hearly r Hr). unfold row_date in *. lia. }
  exists (filter (in_window (window_lo S days) (window_hi S)) (sort_index S)).
  split; [by apply filter_time_returns|]. split; [|split].
  - rewrite <- loc_slice_filter by apply sort_index_sorted.
    rewrite searchsorted_left_0 by done. rewrite Nat.sub_0_r. simpl.
    apply prefix_take.
  - intros r Hr Hdate. rewrite list_elem_of_filter, elem_of_sort_index.
    split; [|done]. apply dates_in_window; [done|].
    destruct Hdate as [Hdate|Hdate]; [left|by right].
    specialize (Hearly r Hr). lia.
  - intros r Hr. apply list_elem_of_filter in Hr as [Hr _].
    by apply (in_window_dates S days r).
Qed.

Lemma filter_time_long_lookback_witness :
  ∃ R, filter_time daily_sample 1825 = Ok R
     ∧ R `prefix_of` sort_index daily_sample
     ∧ (∀ r, r ∈ daily_sample →
          row_date r < last_day daily_sample
            ∨ timestamp r = Calendar.midnight (last_day daily_sample) →
          r ∈ R)
     ∧ (∀ r, r ∈ R → row_date r ≤ last_day daily_sample).
Proof.
  apply (filter_time_long_lookback daily_sample 1825); frame_facts.
  intros r Hr. unfold daily_sample in Hr.
  repeat (apply elem_of_cons in Hr as [->|Hr]; [vm_compute; reflexivity|]).
  by apply not_elem_of_nil in Hr.
Defined.

(** C7 as stated fails twice.  A lookback of a million days puts the start
    day before 0001-01-01 and the call raises.  On a frame with one row
    stamped at 20:00, a lookback of a week returns no row: the result does
    not start at the earliest row of the frame. *)
Lemma filter_time_long_lookback_counterexample :
  let S := [bar 18995 20 4] in
  (∀ r, r ∈ S → last_day S - 7 < row_date r)
  ∧ (∀ r, r ∈ S → last_day S - 1000000 < row_date r)
  ∧ ¬ (∃ R, filter_time S 1000000 = Ok R)
  ∧ ¬ (∃ R, filter_time S 7 = Ok R ∧ head R = head (sort_index S)).
Proof.
  intros S. repeat split.
  - intros r Hr%list_elem_of_singleton. by subst r.
  - intros r Hr%list_elem_of_singleton. by subst r.
  - intros [R HR]. vm_compute in HR. discriminate.
  - intros [R [HR Hhd]]. vm_compute in HR. injection HR as <-.
    vm_compute in Hhd. discriminate.
Qed.

(** C3, as amended.  For a non-empty frame and lookbacks
    [0 <= days1 < days2] whose longer start day is not before 1677-09-22,
    both calls return, and the result of the shorter lookback is a
    subsequence of the result of the longer one: every row of the first is
    a row of the second, in the same order. *)
Theorem filter_time_monotone (S : frame) (days1 days2 : Z) :
  valid_frame S → S ≠ [] → 0 ≤ days1 < days2 →
  Calendar.first_midnight_day ≤ last_day S - days2 →
  ∃ R1 R2, filter_time S days1 = Ok R1
         ∧ filter_time S days2 = Ok R2
         ∧ R1 `sublist_of` R2
         ∧ (∀ r, r ∈ R1 → r ∈ R2).
Proof.
  intros Hv Hne Hd Hstart.
  eexists _, _. split; [apply filter_time_returns; [done..|lia|lia]|].
  split; [apply filter_time_returns; [done..|lia|lia]|].
  set (P1 := in_window (window_lo S days1) (window_hi S)).
  set (P2 := in_window (window_lo S days2) (window_hi S)).
  assert (HP : ∀ r, P1 r → P2 r).
  { intros r [Hlo Hhi]. split; [|done]. etrans; [|exact Hlo].
    apply midnight_mono. lia. }
  assert (Heq : filter P1 (sort_index S) = filter P1 (filter P2 (sort_index S))).
  { rewrite list_filter_filter. apply list_filter_iff.
    intros r. split; [by auto|by intros [? _]]. }
  split.
  - rewrite Heq. apply sublist_filter.
  - intros r. rewrite !list_elem_of_filter. intros [? ?]. auto.
Qed.

Lemma filter_time_monotone_witness :
  ∃ R1 R2, filter_time intraday_sample 1 = Ok R1
         ∧ filter_time intraday_sample 7 = Ok R2
         ∧ R1 `sublist_of` R2
         ∧ (∀ r, r ∈ R1 → r ∈ R2).
Proof. apply (filter_time_monotone intraday_sample 1 7); frame_facts. Defined.

(** C3 as stated fails when the longer lookback leaves the calendar: the
    call with [days1 = 0] returns the row of the frame, the call with
    [days2 = 1000000] raises and has no rows to hold it. *)
Lemma filter_time_monotone_counterexample :
  let S := [bar 18995 0 30] in
  filter_time S 0 = Ok S
  ∧ ¬ (∃ R2, filter_time S 1000000 = Ok R2 ∧ ∀ r, r ∈ S → r ∈ R2).
Proof.
  intros S. split; [by vm_compute|].
  intros [R2 [HR _]]. vm_compute in HR. discriminate.
Qed.

(** C6, as amended.  On the empty frame [filter_time] stops at its first
    statement with the [IndexError] of position 0 of an empty index,
    whatever [days] is, and returns nothing; run on a store of frame
    objects it leaves the store as it was. *)
Theorem filter_time_empty_IndexError (days : Z) :
  filter_time [] days = Raise "IndexError"
  ∧ ∀ (σ : gmap nat frame) (df : nat),
      Obj.filter_time df days (<[df := []]> σ)
      = (<[df := []]> σ, Raise "IndexError").
Proof.
  split; [done|]. intros σ df.
  unfold Obj.filter_time, Obj.index_0, Obj.read, mbind, Obj.M_bind.
  by rewrite lookup_insert_eq.
Qed.

(** C6 as stated names an exception the program does not have. *)
Lemma filter_time_empty_counterexample :
  filter_time [] 0 ≠ Raise "EmptyInputError"
  ∧ filter_time [] 0 = Raise "IndexError".
Proof. split; [discriminate|reflexivity]. Qed.

(** C2, as amended.  Let [R] be a non-empty result of [filter_time] for
    [days >= 0], and let the start day of a second call on [R] be not
    before 1677-09-22.  The second call returns; it anchors at the first
    row of [R], which is its earliest, so every row it returns is a row of
    [R] dated on the date of that earliest row, and every row of [R]
    stamped at midnight of that date is returned.  Rows of [R] dated on a
    later day are left out, so the second result has the rows of the first
    only when all rows of [R] are dated on one day. *)
Theorem filter_time_twice (S R : frame) (days : Z) :
  valid_frame S → 0 ≤ days →
  filter_time S days = Ok R → R ≠ [] →
  Calendar.first_midnight_day ≤ last_day R - days →
  ∃ R', filter_time R days = Ok R'
      ∧ (∀ r, r ∈ R' → r ∈ R ∧ row_date r = last_day R)
      ∧ (∀ r, r ∈ R →
           timestamp r = Calendar.midnight (last_day R) → r ∈ R').
Proof.
  intros Hv Hd HR Hne Hstart.
  apply filter_time_Ok_inv in HR as [_ HR].
  assert (HvR : valid_frame R).
  { subst R. unfold valid_frame in *. rewrite Forall_forall in Hv |- *.
    intros r [_ Hr]%list_elem_of_filter. apply Hv. by rewrite <- elem_of_sort_index. }
  assert (Hsort : StronglySorted index_le R).
  { subst R. apply filter_sorted, sort_index_sorted. }
  eexists. split; [by apply filter_time_returns|].
  destruct R as [|r1 R1]; [done|].
  apply StronglySorted_cons in Hsort as [Hr1 _].
  rewrite Forall_forall in Hr1.
  pose proof (midnight_mono (row_date r1 - days) (row_date r1)) as Hmono.
  split.
  - intros r. rewrite list_elem_of_filter, elem_of_sort_index.
    unfold in_window, window_hi. simpl. intros [[_ Hhi] Hin].
    split; [done|]. apply le_midnight_date in Hhi.
    assert (Hge : timestamp r1 ≤ timestamp r).
    { apply elem_of_cons in Hin as [->|Hin]; [lia|]. by apply Hr1. }
    apply date_mono in Hge. unfold row_date in *. lia.
  - intros r Hin Hr. rewrite list_elem_of_filter, elem_of_sort_index.
    split; [|done]. unfold in_window, window_lo, window_hi in *.
    simpl in *. rewrite Hr. split; [lia|done].
Qed.

Lemma filter_time_twice_witness :
  ∃ R', filter_time (reverse daily_sample) 5 = Ok R'
      ∧ (∀ r, r ∈ R' →
           r ∈ reverse daily_sample
           ∧ row_date r = last_day (reverse daily_sample))
      ∧ (∀ r, r ∈ reverse daily_sample →
           timestamp r = Calendar.midnight (last_day (reverse daily_sample)) →
           r ∈ R').
Proof.
  apply (filter_time_twice daily_sample (reverse daily_sample) 5);
    [frame_facts| |by vm_compute|by vm_compute|by vm_compute].
  by vm_compute.
Defined.

(** C2 as stated fails on a daily frame: the first call with [days = 5]
    returns the four rows in ascending order, the second call anchors at
    the earliest of them and returns that row alone. *)
Lemma filter_time_twice_counterexample :
  filter_time daily_sample 5 = Ok (reverse daily_sample)
  ∧ filter_time (reverse daily_sample) 5 = Ok [bar 18992 0 10]
  ∧ ¬ (∀ r, r ∈ reverse daily_sample → r ∈ [bar 18992 0 10]).
Proof.
  split; [by vm_compute|]. split; [by vm_compute|].
  intros Hall. specialize (Hall (bar 18995 0 30)).
  assert (Hin : bar 18995 0 30 ∈ [bar 18992 0 10]).
  { apply Hall. vm_compute. do 3 apply list_elem_of_further. apply list_elem_of_here. }
  apply list_elem_of_singleton in Hin. vm_compute in Hin. discriminate.
Qed.

(** * The range filter on frame objects *)

Section obj_facts.
Implicit Types (σ : gmap nat frame) (S R : frame) (df o : nat).

Lemma new_fresh σ R :
  ∃ o, Obj.new R σ = (<[o := R]> σ, Ok o) ∧ σ !! o = None.
Proof.
  exists (fresh (dom σ)). split; [done|].
  apply not_elem_of_dom, is_fresh.
Qed.

(** A run of [filter_time] on a reference to [S] adds objects to the
    store, changes none, and ends as the function on [S] does. *)
Lemma filter_time_run σ df S days :
  σ !! df = Some S →
  ∃ σ' res, Obj.filter_time df days σ = (σ', res)
    ∧ σ ⊆ σ'
    ∧ match filter_time S days with
      | Ok R => ∃ o, res = Ok o ∧ σ !! o = None ∧ σ' !! o = Some R
      | Raise e => res = Raise e
      end.
Proof.
  intros Hdf.
  unfold Obj.filter_time, filter_time, Obj.index_0, Obj.sort_index,
    Obj.loc_dates, Obj.read, Obj.lift.
  unfold mbind at 1 2 3 4 5 6 7 8, Obj.M_bind. rewrite Hdf.
  destruct S as [|r0 S']; simpl; [by eauto|].
  destruct (Calendar.sub_days _ _) as [start|e]; simpl; [|by eauto].
  rewrite Hdf.
  destruct (new_fresh σ (sort_index (r0 :: S'))) as (o1 & -> & Ho1).
  rewrite lookup_insert_eq.
  assert (Hσ1 : σ ⊆ <[o1 := sort_index (r0 :: S')]> σ)
    by by apply insert_subseteq.
  destruct (loc_dates _ _ _) as [R|e]; simpl; [|by eauto].
  destruct (new_fresh (<[o1 := sort_index (r0 :: S')]> σ) R) as (o2 & -> & Ho2).
  eexists _, _. split; [done|]. split.
  - etrans; [exact Hσ1|]. by apply insert_subseteq.
  - exists o2. split; [done|]. split; [|by rewrite lookup_insert_eq].
    eapply lookup_weaken_None; [exact Ho2|exact Hσ1].
Qed.

(** Whether the call returns or raises, every frame of the store is as
    it was. *)
Lemma filter_time_store_grows σ df days :
  σ ⊆ (Obj.filter_time df days σ).1.
Proof.
  destruct (σ !! df) as [S|] eqn:Hdf.
  - destruct (filter_time_run σ df S days Hdf) as (σ' & res & -> & Hsub & _).
    done.
  - unfold Obj.filter_time, Obj.index_0, Obj.read.
    unfold mbind at 1 2 3 4, Obj.M_bind. by rewrite Hdf.
Qed.
End obj_facts.

(** C8, as amended.  For a non-empty frame object and a lookback
    [days >= 0] whose start day is not before 1677-09-22, [filter_time]
    leaves the frame it is given as it was, rows, values and order, changes
    no other frame of the store, and returns a frame object that did not
    exist before the call, whose rows are in ascending order of the
    index. *)
Theorem filter_time_no_mutation
    (σ : gmap nat frame) (df : nat) (S : frame) (days : Z) :
  σ !! df = Some S → valid_frame S → S ≠ [] → 0 ≤ days →
  Calendar.first_midnight_day ≤ last_day S - days →
  ∃ σ' o R, Obj.filter_time df days σ = (σ', Ok o)
    ∧ σ' !! df = Some S
    ∧ (∀ o' S', σ !! o' = Some S' → σ' !! o' = Some S')
    ∧ o ≠ df ∧ σ !! o = None
    ∧ σ' !! o = Some R
    ∧ filter_time S days = Ok R
    ∧ StronglySorted index_le R.
Proof.
  intros Hdf Hv Hne Hd Hstart.
  destruct (filter_time_run σ df S days Hdf) as (σ' & res & Hrun & Hsub & Hres).
  destruct (filter_time S days) as [R|e] eqn:HR;
    [|by rewrite filter_time_returns in HR].
  destruct Hres as (o & -> & Ho & Ho').
  exists σ', o, R. split; [done|]. split; [by eapply lookup_weaken|].
  split; [intros o' S' Ho''; by eapply lookup_weaken|].
  split; [congruence|]. split; [done|]. split; [done|]. split; [done|].
  by eapply filter_time_submseteq.
Qed.

Lemma filter_time_no_mutation_witness :
  let σ : gmap nat frame := {[0%nat := daily_sample]} in
  ∃ σ' o R, Obj.filter_time 0 7 σ = (σ', Ok o)
    ∧ σ' !! 0%nat = Some daily_sample
    ∧ (∀ o' S', σ !! o' = Some S' → σ' !! o' = Some S')
    ∧ o ≠ 0%nat ∧ σ !! o = None
    ∧ σ' !! o = Some R
    ∧ filter_time daily_sample 7 = Ok R
    ∧ StronglySorted index_le R.
Proof.
  intros σ. apply (filter_time_no_mutation σ 0 daily_sample 7);
    [apply lookup_singleton_eq|frame_facts..].
Defined.

(** C8 as stated fails in its second half when the lookback leaves the
    calendar: the call raises and returns no frame.  The store is as it
    was. *)
Lemma filter_time_no_mutation_counterexample :
  let σ : gmap nat frame := {[0%nat := daily_sample]} in
  Obj.filter_time 0 1000000 σ = (σ, Raise "OverflowError")
  ∧ ¬ (∃ σ' o, Obj.filter_time 0 1000000 σ = (σ', Ok o)).
Proof.
  intros σ.
  assert (Hrun : Obj.filter_time 0 1000000 σ = (σ, Raise "OverflowError")).
  { unfold Obj.filter_time, Obj.index_0, Obj.read, Obj.lift.
    unfold mbind at 1 2 3 4, Obj.M_bind. subst σ.
    by rewrite lookup_singleton_eq. }
  split; [done|]. intros (σ' & o & Hrun'). congruence.
Qed.

(** * The callbacks *)

Section filter_df_facts.
Context {json : Type}.
Variable stock_dataframe : string → frame * frame.
Variable to_json : frame → result json.

Lemma df_dict_known stock :
  stock ∈ symbol_dict.*1 →
  df_dict stock_dataframe !! stock = Some (stock_dataframe stock).
Proof.
  intros Hin. unfold symbol_dict in Hin. simpl in Hin.
  repeat (apply elem_of_cons in Hin as [->|Hin]; [by vm_compute|]).
  by apply not_elem_of_nil in Hin.
Qed.

Lemma df_dict_unknown stock :
  stock ∉ symbol_dict.*1 → df_dict stock_dataframe !! stock = None.
Proof.
  intros Hin. unfold df_dict. apply not_elem_of_list_to_map_1.
  by rewrite <- list_fmap_compose.
Qed.

Lemma days_lookup i :
  0 ≤ i ≤ 5 →
  (list_to_map (enumerate [1; 7; 30; 90; 365; 5 * 365]) : gmap Z Z) !! i
  = Some (window_days_spec i).
Proof.
  intros Hi.
  assert (Hc : i = 0 ∨ i = 1 ∨ i = 2 ∨ i = 3 ∨ i = 4 ∨ i = 5) by lia.
  destruct Hc as [->|[->|[->|[->|[->| ->]]]]]; by vm_compute.
Qed.
End filter_df_facts.

(** C4.  For every known ticker and every window index from 0 to 6,
    [filter_df] takes the intraday frame if the index is at most 2 and the
    daily frame otherwise; at index 6 it serializes the chosen frame as it
    is; at the other indices it serializes [filter_time] of the chosen
    frame, with the day count 1, 7, 30, 90, 365 or 1825 of the index. *)
Theorem filter_df_window {json : Type}
    (stock_dataframe : string → frame * frame)
    (to_json : frame → result json) (stock : string) (time_index : Z) :
  stock ∈ symbol_dict.*1 → 0 ≤ time_index ≤ 6 →
  let daily := (stock_dataframe stock).1 in
  let intraday := (stock_dataframe stock).2 in
  let chosen := if decide (time_index ≤ 2) then intraday else daily in
  filter_df stock_dataframe to_json stock time_index
  = if decide (time_index = 6) then to_json chosen
    else filter_time chosen (window_days_spec time_index) ≫= to_json.
Proof.
  intros Hstock Hi daily intraday chosen. unfold filter_df, dict_get.
  rewrite df_dict_known by done.
  destruct (stock_dataframe stock) as [dff_daily dff_intraday] eqn:Hpair.
  simpl in *. subst daily intraday. fold chosen.
  destruct (decide (time_index = 6)) as [->|Hne]; [done|].
  rewrite days_lookup by lia. simpl.
  by destruct (filter_time chosen (window_days_spec time_index)).
Qed.

Lemma filter_df_window_witness :
  let stock_dataframe := λ _ : string, (daily_sample, intraday_sample) in
  let to_json := λ df : frame, Ok df in
  filter_df stock_dataframe to_json "TSLA" 1
  = filter_time intraday_sample 7 ≫= to_json.
Proof.
  intros stock_dataframe to_json.
  apply (filter_df_window stock_dataframe to_json "TSLA" 1); [|lia].
  simpl. do 2 apply list_elem_of_further. apply list_elem_of_here.
Defined.

(** ** Rounding to one decimal *)

Section rounding.
Import Format.
Local Open Scope Q_scope.

Lemma round_half_even_near x :
  inject_Z (round_half_even x) - (1 # 2) <= x
    <= inject_Z (round_half_even x) + (1 # 2).
Proof.
  pose proof (Qfloor_le x) as Hlo. pose proof (Qlt_floor x) as Hhi.
  rewrite inject_Z_plus in Hhi. change (inject_Z 1) with 1 in Hhi.
  unfold round_half_even. cbv zeta.
  destruct (Qcompare _ _) eqn:Hc.
  - apply Qeq_alt in Hc. destruct (Z.even _); rewrite ?inject_Z_plus;
      change (inject_Z 1) with 1; lra.
  - apply Qlt_alt in Hc. lra.
  - apply Qgt_alt in Hc. rewrite inject_Z_plus.
    change (inject_Z 1) with 1. lra.
Qed.

(** The shown number is within half a tenth of the value. *)
Lemma tenths_near x :
  (tenths x # 10) - (1 # 20) <= x <= (tenths x # 10) + (1 # 20).
Proof.
  pose proof (round_half_even_near (x * 10)) as H.
  rewrite (Qmake_Qdiv (tenths x) 10). unfold Qdiv.
  change (/ inject_Z (Z.pos 10)) with (1 # 10). unfold tenths in *. lra.
Qed.

Lemma round_half_even_between x :
  (Qfloor x ≤ round_half_even x ≤ Qfloor x + 1)%Z.
Proof.
  unfold round_half_even. cbv zeta.
  destruct (Qcompare _ _); [destruct (Z.even _)|..]; lia.
Qed.

Lemma tenths_nonneg x : 0 <= x → (0 ≤ tenths x)%Z.
Proof.
  intros Hx. pose proof (round_half_even_between (x * 10)) as [Hlo _].
  assert (H0 : (Qfloor 0 ≤ Qfloor (x * 10))%Z) by (apply Qfloor_resp_le; lra).
  change (Qfloor 0) with 0%Z in H0. unfold tenths. lia.
Qed.

Lemma tenths_nonpos x : x < 0 → (tenths x ≤ 0)%Z.
Proof.
  intros Hx. pose proof (round_half_even_between (x * 10)) as [_ Hhi].
  pose proof (Qfloor_le (x * 10)) as Hfl.
  assert (H0 : (Qfloor (x * 10) < 0)%Z).
  { rewrite Zlt_Qlt. change (inject_Z 0) with 0. lra. }
  unfold tenths. lia.
Qed.
End rounding.

(** ** Reading a label back *)

Section labels.
Import Format.

Lemma all_digits_string_of_uint d :
  all_digits (NilEmpty.string_of_uint d) = true.
Proof. induction d; simpl; auto. Qed.

Lemma N_to_uint_nonnil n : N.to_uint n ≠ Nil.
Proof. destruct n; [discriminate|apply Unsigned.to_uint_nonnil]. Qed.

Lemma all_digits_digits n : all_digits (digits n) = true.
Proof.
  unfold digits, NilZero.string_of_uint.
  destruct (N.to_uint _) eqn:Hd; [done|rewrite <- Hd..];
    apply all_digits_string_of_uint.
Qed.

Lemma digits_cons n : ∃ a s, digits n = String a s ∧ is_digit a = true.
Proof.
  pose proof (all_digits_digits n) as Hall.
  unfold digits, NilZero.string_of_uint in *.
  pose proof (N_to_uint_nonnil (Z.to_N n)) as Hnil.
  destruct (N.to_uint _); [done|simpl in *; eauto..].
Qed.

Lemma append_cons a (s1 s2 : string) :
  String a s1 +:+ s2 = String a (s1 +:+ s2).
Proof. reflexivity. Qed.

Lemma append_assoc (s1 s2 s3 : string) :
  (s1 +:+ s2) +:+ s3 = s1 +:+ (s2 +:+ s3).
Proof.
  induction s1 as [|a s1 IH]; [done|]. rewrite !append_cons. by f_equal.
Qed.

Lemma split_on_digits c s rest :
  all_digits s = true → is_digit c = false →
  split_on c (s +:+ String c rest) = (s, rest).
Proof.
  intros Hs Hc. induction s as [|a s IH].
  - change (split_on c (String c rest) = ("", rest)). simpl.
    by rewrite Ascii.eqb_refl.
  - rewrite append_cons. simpl in *.
    apply andb_prop in Hs as [Ha Hs].
    destruct (Ascii.eqb_spec a c) as [->|_]; [congruence|].
    by rewrite IH.
Qed.

Lemma uint_of_digits n :
  (0 ≤ n)%Z →
  ∃ d, NilZero.uint_of_string (digits n) = Some d ∧ Z.of_uint d = n.
Proof.
  intros Hn. exists (N.to_uint (Z.to_N n)). split.
  - apply NilZero.usu, N_to_uint_nonnil.
  - unfold Z.of_uint. change Pos.of_uint with N.of_uint.
    rewrite DecimalN.Unsigned.of_to. by apply Z2N.id.
Qed.

Lemma length_digit n : (0 ≤ n < 10)%Z → String.length (digits n) = 1%nat.
Proof.
  intros Hn.
  assert (Hc : n = 0 ∨ n = 1 ∨ n = 2 ∨ n = 3 ∨ n = 4 ∨ n = 5 ∨ n = 6
               ∨ n = 7 ∨ n = 8 ∨ n = 9) by lia.
  destruct Hc as [->|[->|[->|[->|[->|[->|[->|[->|[->| ->]]]]]]]]]; done.
Qed.


Lemma decimal_value_digits neg t :
  (0 ≤ t)%Z →
  decimal_value neg
    (digits (t `div` 10) +:+ "." +:+ digits (t `mod` 10) +:+ " $")
  = Some ((if neg then - t else t)%Z # 10).
Proof.
  intros Ht.
  destruct (uint_of_digits (t `div` 10)) as (di & Hdi & Hvi);
    [by apply Z.div_pos|].
  destruct (uint_of_digits (t `mod` 10)) as (df & Hdf & Hvf);
    [by apply Z.mod_pos_bound|].
  pose proof (length_digit (t `mod` 10) (Z.mod_pos_bound t 10 eq_refl)) as Hlen.
  assert (Hval : (10 * Z.of_uint di + Z.of_uint df = t)%Z).
  { rewrite Hvi, Hvf. symmetry. apply Z.div_mod. lia. }
  unfold decimal_value.
  change ("." +:+ ?s) with (String "." s).
  rewrite split_on_digits by (apply all_digits_digits || done).
  change (digits (t `mod` 10) +:+ " $")
    with (digits (t `mod` 10) +:+ String " " "$").
  rewrite split_on_digits by (apply all_digits_digits || done).
  rewrite decide_True by done. by rewrite Hdi, Hdf, Hval.
Qed.

(** The label of a value reads back as the value rounded to tenths. *)
Lemma label_value_format x :
  label_value (format_1f x +:+ " $") = Some (tenths x # 10).
Proof.
  unfold format_1f. cbv zeta. set (t := Z.abs (tenths x)).
  assert (Ht : (0 ≤ t)%Z) by (subst t; lia).
  pose proof (decimal_value_digits true t Ht) as Hneg.
  pose proof (decimal_value_digits false t Ht) as Hpos.
  rewrite !append_assoc.
  destruct (Qle_bool 0 x) eqn:Hsign.
  - apply Qle_bool_iff, tenths_nonneg in Hsign.
    change ("" +:+ ?s) with s.
    destruct (digits_cons (t `div` 10)) as (a & s & Hcons & Ha).
    assert (Hminus : Ascii.eqb a "-" = false)
      by (destruct (Ascii.eqb_spec a "-") as [->|]; done).
    unfold label_value. rewrite Hcons at 1. rewrite append_cons.
    rewrite Hminus, Hpos.
    subst t. do 2 f_equal. lia.
  - assert (Hlt : (x < 0)%Q).
    { apply Qnot_le_lt. intros Hle. apply Qle_bool_iff in Hle. congruence. }
    apply tenths_nonpos in Hlt.
    change ("-" +:+ ?s) with (String "-" s).
    unfold label_value. rewrite Ascii.eqb_refl, Hneg.
    subst t. do 2 f_equal. lia.
Qed.
End labels.

(** ** Extremes of a column *)

Section extremes.
Local Open Scope Q_scope.

Lemma foldl_Qmax_upper (col : list Q) x y :
  y ∈ x :: col → y <= foldl Qmax x col.
Proof.
  revert x y. induction col as [|a col IH]; intros x y Hy; simpl.
  - apply list_elem_of_singleton in Hy as ->. apply Qle_refl.
  - apply elem_of_cons in Hy as [->|Hy].
    + eapply Qle_trans; [apply (Q.le_max_l x a)|].
      apply IH, list_elem_of_here.
    + apply elem_of_cons in Hy as [->|Hy].
      * eapply Qle_trans; [apply (Q.le_max_r x a)|].
        apply IH, list_elem_of_here.
      * apply IH. by apply list_elem_of_further.
Qed.

Lemma foldl_Qmin_lower (col : list Q) x y :
  y ∈ x :: col → foldl Qmin x col <= y.
Proof.
  revert x y. induction col as [|a col IH]; intros x y Hy; simpl.
  - apply list_elem_of_singleton in Hy as ->. apply Qle_refl.
  - apply elem_of_cons in Hy as [->|Hy].
    + eapply Qle_trans; [|apply (Q.le_min_l x a)].
      apply IH, list_elem_of_here.
    + apply elem_of_cons in Hy as [->|Hy].
      * eapply Qle_trans; [|apply (Q.le_min_r x a)].
        apply IH, list_elem_of_here.
      * apply IH. by apply list_elem_of_further.
Qed.

Lemma series_max_upper (col : list Q) :
  col ≠ [] → ∃ mx, series_max col = Some mx ∧ ∀ y, y ∈ col → y <= mx.
Proof.
  destruct col as [|x col]; [done|]. intros _. eexists. split; [done|].
  intros y. apply foldl_Qmax_upper.
Qed.

Lemma series_min_lower (col : list Q) :
  col ≠ [] → ∃ mn, series_min col = Some mn ∧ ∀ y, y ∈ col → mn <= y.
Proof.
  destruct col as [|x col]; [done|]. intros _. eexists. split; [done|].
  intros y. apply foldl_Qmin_lower.
Qed.
End extremes.

(** The scenario of the design document: the lows 5.05, 7.2 and 3.33 give
    the labels 7.2 $ and 3.3 $.  (The decimals stand for the floats nearest
    to them, which round to the same tenths.) *)
Example highest_lowest_value_scenario :
  highest_lowest_value
    (λ _ : unit, Ok [Row 0 6 8 (505 # 100) 6 0; Row 1 8 9 (72 # 10) 8 0;
                    Row 2 4 5 (333 # 100) 4 0])
    () "low"
  = Ok ("7.2 $", "3.3 $").
Proof. by vm_compute. Qed.

(** C5, as amended.  For every non-empty decoded dataset and every column
    of it, the two labels are the maximum and the minimum of the column,
    rounded to one decimal (ties to the even digit) and followed by " $".
    The maximum and the minimum bound every value of the column; the
    numbers shown bound them up to the rounding: the number in the min
    label minus 0.05 is at most every value, and every value is at most
    the number in the max label plus 0.05. *)
Theorem highest_lowest_value_bounds {json : Type}
    (read_json : json → result frame) (json_df : json) (ohlc : string)
    (dff : frame) (col : row → Q) :
  read_json json_df = Ok dff → dff ≠ [] → column ohlc = Ok col →
  ∃ mx mn,
    series_max (col <$> dff) = Some mx
    ∧ series_min (col <$> dff) = Some mn
    ∧ highest_lowest_value read_json json_df ohlc
      = Ok (Format.format_1f mx +:+ " $", Format.format_1f mn +:+ " $")
    ∧ Format.label_value (Format.format_1f mx +:+ " $")
      = Some (Format.tenths mx # 10)
    ∧ Format.label_value (Format.format_1f mn +:+ " $")
      = Some (Format.tenths mn # 10)
    ∧ ∀ r, r ∈ dff →
        (mn <= col r <= mx
         ∧ (Format.tenths mn # 10) - (1 # 20) <= col r
             <= (Format.tenths mx # 10) + (1 # 20))%Q.
Proof.
  intros Hread Hne Hcol.
  assert (Hne' : col <$> dff ≠ []) by by destruct dff.
  destruct (series_max_upper _ Hne') as (mx & Hmx & Hup).
  destruct (series_min_lower _ Hne') as (mn & Hmn & Hlow).
  exists mx, mn. split; [done|]. split; [done|]. split.
  { unfold highest_lowest_value. rewrite Hread, Hcol. simpl.
    by rewrite Hmx, Hmn. }
  split; [apply label_value_format|]. split; [apply label_value_format|].
  intros r Hr.
  assert (Hin : col r ∈ col <$> dff) by by apply list_elem_of_fmap_2.
  specialize (Hup _ Hin). specialize (Hlow _ Hin).
  pose proof (tenths_near mx). pose proof (tenths_near mn).
  split; split; lra.
Qed.

Lemma highest_lowest_value_bounds_witness :
  let dff := [Row 0 6 8 (505 # 100) 6 0; Row 1 8 9 (72 # 10) 8 0;
              Row 2 4 5 (333 # 100) 4 0] in
  let read_json := λ _ : unit, Ok dff in
  ∃ mx mn,
    series_max (low <$> dff) = Some mx
    ∧ series_min (low <$> dff) = Some mn
    ∧ highest_lowest_value read_json () "low"
      = Ok (Format.format_1f mx +:+ " $", Format.format_1f mn +:+ " $")
    ∧ Format.label_value (Format.format_1f mx +:+ " $")
      = Some (Format.tenths mx # 10)
    ∧ Format.label_value (Format.format_1f mn +:+ " $")
      = Some (Format.tenths mn # 10)
    ∧ ∀ r, r ∈ dff →
        (mn <= low r <= mx
         ∧ (Format.tenths mn # 10) - (1 # 20) <= low r
             <= (Format.tenths mx # 10) + (1 # 20))%Q.
Proof.
  intros dff read_json.
  apply (highest_lowest_value_bounds read_json () "low" dff low); done.
Defined.

(** C5 as stated fails on a column whose extremes are not multiples of a
    tenth.  The closes 7.125 and 7.375 are floats; the max label shows
    7.4 and the min label 7.1, and 7.1 is not at most 7.125: the number in
    the min label can exceed the minimum, and the one in the max label can
    fall below the maximum, as for the single close 7.125. *)
Lemma highest_lowest_value_bounds_counterexample :
  let dff := [Row 0 7 8 7 (57 # 8) 0] in
  let read_json := λ _ : unit, Ok dff in
  highest_lowest_value read_json () "close" = Ok ("7.1 $", "7.1 $")
  ∧ Format.label_value "7.1 $" = Some (71 # 10)
  ∧ ¬ (∀ r, r ∈ dff → (close r <= 71 # 10)%Q).
Proof.
  intros dff read_json. split; [by vm_compute|]. split; [by vm_compute|].
  intros Hall. specialize (Hall _ (list_elem_of_here _ _)).
  vm_compute in Hall. by apply Hall.
Qed.

(** * Further properties of the range filter *)

Section filter_time_more.
Import Calendar.
Implicit Types (df S R : frame) (r : row) (days : Z).

(** The call returns as soon as both days have a midnight that is a
    [Timestamp], whatever the sign of [days]. *)
Lemma filter_time_returns_gen S days :
  S ≠ [] →
  first_midnight_day ≤ last_day S - days ≤ 106751 →
  first_midnight_day ≤ last_day S ≤ 106751 →
  filter_time S days
  = Ok (filter (in_window (window_lo S days) (window_hi S)) (sort_index S)).
Proof.
  intros Hne Hstart Hlast. destruct S as [|r0 S']; [done|].
  unfold filter_time, window_lo, window_hi. simpl in *.
  fold (row_date r0). rewrite sub_days_Ok by done. simpl.
  apply loc_dates_Ok; [apply sort_index_sorted|done..].
Qed.

Lemma valid_frame_last_day S :
  valid_frame S → S ≠ [] → first_midnight_day - 1 ≤ last_day S ≤ 106751.
Proof.
  intros Hv Hne. destruct S as [|r0 S']; [done|].
  apply Forall_cons_1 in Hv as [Hv0 _]. by apply is_Timestamp_date in Hv0.
Qed.

Lemma searchsorted_left_before df lo :
  Forall (λ r, timestamp r < lo) (take (searchsorted_left df lo) df).
Proof.
  induction df as [|r df IH]; simpl; [constructor|].
  destruct (decide _); simpl; by constructor.
Qed.

Lemma searchsorted_right_after df hi :
  StronglySorted index_le df →
  Forall (λ r, hi < timestamp r) (drop (searchsorted_right df hi) df).
Proof.
  induction 1 as [|r df Hs IH Hr]; simpl; [constructor|].
  destruct (decide _) as [|Hhi]; simpl; [done|].
  constructor; [lia|]. eapply Forall_impl; [exact Hr|].
  unfold index_le. simpl. lia.
Qed.

(** Rows with distinct index entries are told apart by the index. *)
Lemma unique_index_inj S r1 r2 :
  NoDup (timestamp <$> S) → r1 ∈ S → r2 ∈ S →
  timestamp r1 = timestamp r2 → r1 = r2.
Proof.
  induction S as [|r S IH]; intros Hnd H1 H2 Heq.
  { by apply not_elem_of_nil in H1. }
  rewrite fmap_cons in Hnd. apply NoDup_cons in Hnd as [Hr Hnd].
  apply elem_of_cons in H1 as [->|H1]; apply elem_of_cons in H2 as [->|H2].
  - done.
  - exfalso. apply Hr. rewrite Heq. by apply list_elem_of_fmap_2.
  - exfalso. apply Hr. rewrite <- Heq. by apply list_elem_of_fmap_2.
  - by apply IH.
Qed.

(** Two frames with the same rows and a unique index sort to the same
    frame. *)
Lemma sort_index_unique S1 S2 :
  NoDup (timestamp <$> S1) → S1 ≡ₚ S2 → sort_index S1 = sort_index S2.
Proof.
  intros Hnd Hperm.
  apply (StronglySorted_unique_strong index_le).
  - intros r1 r2 H1 H2 H12 H21. rewrite elem_of_sort_index in H1, H2.
    rewrite <- Hperm in H2.
    apply (unique_index_inj S1); [done..|]. unfold index_le in *. lia.
  - apply sort_index_sorted.
  - apply sort_index_sorted.
  - by rewrite !sort_index_perm.
Qed.

Lemma sorted_last_max R r :
  StronglySorted index_le R → last R = Some r →
  ∀ r', r' ∈ R → timestamp r' ≤ timestamp r.
Proof.
  intros Hs Hlast r' Hr'. apply last_Some in Hlast as [R' ->].
  apply elem_of_app in Hr' as [Hr'|Hr'].
  - eapply (StronglySorted_app_1_elem_of index_le); [done..|].
    apply list_elem_of_here.
  - apply list_elem_of_singleton in Hr' as ->. lia.
Qed.

Lemma filter_all (P : row → Prop) `{!∀ r, Decision (P r)} df :
  Forall P df → filter P df = df.
Proof.
  induction 1 as [|r df Hr _ IH]; [done|].
  by rewrite filter_cons_True, IH.
Qed.
End filter_time_more.

(** X1.  The result is one contiguous run of the sorted frame: the rows
    before it are stamped before midnight of the start day, the rows after
    it are stamped after midnight of the anchor day. *)
Theorem filter_time_contiguous (S : frame) (days : Z) :
  valid_frame S → S ≠ [] → 0 ≤ days →
  Calendar.first_midnight_day ≤ last_day S - days →
  ∃ R before after,
    filter_time S days = Ok R
    ∧ sort_index S = before ++ R ++ after
    ∧ Forall (λ r, timestamp r < window_lo S days) before
    ∧ Forall (λ r, window_hi S < timestamp r) after.
Proof.
  intros Hv Hne Hd Hstart.
  set (lo := window_lo S days). set (hi := window_hi S).
  set (i := searchsorted_left (sort_index S) lo).
  set (j := searchsorted_right (sort_index S) hi).
  exists (take (j - i) (drop i (sort_index S))),
    (take i (sort_index S)), (drop (j - i) (drop i (sort_index S))).
  split; [|split; [|split]].
  - rewrite filter_time_returns by done. f_equal. symmetry.
    apply loc_slice_filter, sort_index_sorted.
  - by rewrite !take_drop.
  - apply searchsorted_left_before.
  - rewrite drop_drop.
    replace (i + (j - i))%nat with (j + (i - j))%nat by lia.
    rewrite <- drop_drop. apply Forall_drop.
    apply searchsorted_right_after, sort_index_sorted.
Qed.

Lemma filter_time_contiguous_witness :
  ∃ R before after,
    filter_time intraday_sample 1 = Ok R
    ∧ sort_index intraday_sample = before ++ R ++ after
    ∧ Forall (λ r, timestamp r < window_lo intraday_sample 1) before
    ∧ Forall (λ r, window_hi intraday_sample < timestamp r) after.
Proof. apply (filter_time_contiguous intraday_sample 1); frame_facts. Defined.

(** X2.  When the lookback reaches before 0001-01-01, the first day of
    the calendar, [filter_time] raises [OverflowError] in the date
    arithmetic, before the frame is sorted or sliced: run on the store of
    frame objects it adds no object. *)
Theorem filter_time_before_calendar (S : frame) (days : Z) :
  valid_frame S → S ≠ [] → last_day S - days < Calendar.date_min →
  filter_time S days = Raise "OverflowError"
  ∧ ∀ (σ : gmap nat frame) (df : nat),
      Obj.filter_time df days (<[df := S]> σ)
      = (<[df := S]> σ, Raise "OverflowError").
Proof.
  intros _ Hne Hd. split; [by apply filter_time_overflow|].
  intros σ df. destruct S as [|r0 S']; [done|].
  unfold Obj.filter_time, Obj.index_0, Obj.read, Obj.lift.
  unfold mbind at 1 2 3 4, Obj.M_bind. rewrite lookup_insert_eq.
  simpl in *. unfold row_date in Hd. by rewrite sub_days_overflow.
Qed.

Lemma filter_time_before_calendar_witness :
  filter_time daily_sample 1000000 = Raise "OverflowError"
  ∧ ∀ (σ : gmap nat frame) (df : nat),
      Obj.filter_time df 1000000 (<[df := daily_sample]> σ)
      = (<[df := daily_sample]> σ, Raise "OverflowError").
Proof.
  apply (filter_time_before_calendar daily_sample 1000000); frame_facts.
Defined.

(** X3.  A negative [days] puts the start day after the anchor day: the
    window is empty and the call returns the empty frame, without an
    error, as long as the start day is not after 2262-04-11. *)
Theorem filter_time_negative_days (S : frame) (days : Z) :
  valid_frame S → S ≠ [] → days < 0 →
  Calendar.first_midnight_day ≤ last_day S →
  last_day S - days ≤ 106751 →
  filter_time S days = Ok [].
Proof.
  intros Hv Hne Hd Hlast Hstart.
  pose proof (valid_frame_last_day S Hv Hne) as Hl.
  rewrite filter_time_returns_gen by (done || lia). f_equal.
  apply elem_of_nil_inv. intros r [[Hlo Hhi] _]%list_elem_of_filter.
  assert (Hlt : window_hi S < window_lo S days);
    [|unfold in_window in *; lia].
  unfold window_lo, window_hi, Calendar.midnight.
  rewrite NS_PER_DAY_eq. lia.
Qed.

Lemma filter_time_negative_days_witness :
  filter_time daily_sample (-3) = Ok [].
Proof. apply (filter_time_negative_days daily_sample (-3)); frame_facts. Defined.

(** X4.  With [days = 0], the default of the parameter, the call returns
    exactly the rows stamped at midnight of the anchor day. *)
Theorem filter_time_default_days (S : frame) :
  valid_frame S → S ≠ [] →
  Calendar.first_midnight_day ≤ last_day S →
  ∃ R, filter_time S 0 = Ok R
     ∧ ∀ r, r ∈ R ↔ r ∈ S ∧ timestamp r = Calendar.midnight (last_day S).
Proof.
  intros Hv Hne Hlast. eexists. split.
  - apply filter_time_returns; [done..|lia].
  - intros r. rewrite list_elem_of_filter, elem_of_sort_index.
    unfold in_window, window_lo, window_hi. rewrite Z.sub_0_r.
    split; [intros [? ?]; split; [done|lia]|intros [? ->]; split; [lia|done]].
Qed.

Lemma filter_time_default_days_witness :
  ∃ R, filter_time daily_sample 0 = Ok R
     ∧ ∀ r, r ∈ R ↔
         r ∈ daily_sample
         ∧ timestamp r = Calendar.midnight (last_day daily_sample).
Proof. apply (filter_time_default_days daily_sample); frame_facts. Defined.

(** X5.  With a unique index the result depends on the order of the input
    rows through the anchor only: two frames with the same rows and the
    same anchor day give the same result. *)
Theorem filter_time_row_order (S1 S2 : frame) (days : Z) :
  valid_frame S1 → S1 ≠ [] → NoDup (timestamp <$> S1) →
  S1 ≡ₚ S2 → last_day S1 = last_day S2 →
  0 ≤ days → Calendar.first_midnight_day ≤ last_day S1 - days →
  ∃ R, filter_time S1 days = Ok R ∧ filter_time S2 days = Ok R.
Proof.
  intros Hv Hne Hnd Hperm Hlast Hd Hstart.
  assert (Hv2 : valid_frame S2) by (unfold valid_frame; by rewrite <- Hperm).
  assert (Hne2 : S2 ≠ []).
  { intros ->. by apply Permutation_nil_r in Hperm. }
  eexists. split; [by apply filter_time_returns|].
  rewrite filter_time_returns by (done || by rewrite <- Hlast).
  unfold window_lo, window_hi. rewrite <- Hlast.
  by rewrite (sort_index_unique S1 S2).
Qed.

Lemma filter_time_row_order_witness :
  ∃ R, filter_time daily_sample 1 = Ok R
     ∧ filter_time [bar 18995 0 30; bar 18993 0 20; bar 18994 0 5;
                    bar 18992 0 10] 1 = Ok R.
Proof.
  apply (filter_time_row_order daily_sample).
  - frame_facts.
  - frame_facts.
  - by apply (bool_decide_unpack _).
  - apply perm_skip, perm_swap.
  - reflexivity.
  - frame_facts.
  - frame_facts.
Defined.

(** X6.  Filtering again keeps the result, once the result is put back in
    the order the filter expects.  When the anchor row is stamped at
    midnight (a daily frame), the result of a call, reversed so that its
    most recent row comes first, is returned whole by a second call with
    the same [days]. *)
Theorem filter_time_refilter (S : frame) (days : Z) :
  valid_frame S → S ≠ [] →
  index_0 S = Ok (Calendar.midnight (last_day S)) →
  0 ≤ days → Calendar.first_midnight_day ≤ last_day S - days →
  ∃ R R', filter_time S days = Ok R
        ∧ filter_time (reverse R) days = Ok R'
        ∧ R' ≡ₚ R.
Proof.
  intros Hv Hne Hanchor Hd Hstart.
  set (W := in_window (window_lo S days) (window_hi S)).
  set (R := filter W (sort_index S)).
  assert (HR : filter_time S days = Ok R) by by apply filter_time_returns.
  assert (HW : Forall W R).
  { apply Forall_forall. by intros r [? _]%list_elem_of_filter. }
  destruct S as [|r0 S']; [done|]. simpl in Hanchor.
  injection Hanchor as Hanchor.
  assert (Hr0 : r0 ∈ R).
  { apply list_elem_of_filter. split; [|apply elem_of_sort_index, list_elem_of_here].
    unfold W, in_window, window_lo, window_hi. simpl. rewrite Hanchor.
    split; [apply midnight_mono; lia|done]. }
  destruct (last R) as [rl|] eqn:Hlast;
    [|apply last_None in Hlast; rewrite Hlast in Hr0;
      by apply not_elem_of_nil in Hr0].
  assert (Hrl : timestamp rl = window_hi (r0 :: S')).
  { pose proof (sorted_last_max R rl) as Hmax.
    specialize (Hmax (filter_sorted W _ (sort_index_sorted _)) Hlast r0 Hr0).
    assert (Hin : rl ∈ R).
    { apply last_Some in Hlast as [R0 ->].
      apply elem_of_app. right. apply list_elem_of_here. }
    rewrite Forall_forall in HW. destruct (HW rl Hin) as [_ Hhi].
    unfold window_hi in *. simpl in *. lia. }
  assert (Hday : last_day (reverse R) = last_day (r0 :: S')).
  { apply last_Some in Hlast as [R0 HR0]. rewrite HR0, reverse_snoc. simpl.
    unfold row_date. rewrite Hrl. unfold window_hi. apply date_midnight. }
  assert (HvR : valid_frame (reverse R)).
  { unfold valid_frame in *. rewrite Forall_forall in Hv |- *.
    intros r Hr. apply Hv. rewrite elem_of_reverse in Hr.
    apply list_elem_of_filter in Hr as [_ Hr]. by rewrite <- elem_of_sort_index. }
  assert (HneR : reverse R ≠ []).
  { intros Hnil. apply (f_equal reverse) in Hnil.
    rewrite reverse_involutive in Hnil. rewrite Hnil in Hr0.
    by apply not_elem_of_nil in Hr0. }
  exists R, (sort_index (reverse R)). split; [done|]. split.
  - rewrite filter_time_returns by (done || by rewrite Hday).
    unfold window_lo, window_hi. rewrite Hday. f_equal.
    apply filter_all. apply Forall_forall. intros r Hr.
    rewrite elem_of_sort_index, elem_of_reverse in Hr.
    rewrite Forall_forall in HW. by apply HW.
  - by rewrite sort_index_perm, reverse_Permutation.
Qed.

Lemma filter_time_refilter_witness :
  ∃ R R', filter_time daily_sample 2 = Ok R
        ∧ filter_time (reverse R) 2 = Ok R'
        ∧ R' ≡ₚ R.
Proof.
  apply (filter_time_refilter daily_sample 2); [frame_facts..| | |];
    [reflexivity|frame_facts..].
Defined.

(** * Further properties of the range filter on frame objects *)

(** X7.  Whatever the reference, the store and [days], and whether the
    call returns or raises, [filter_time] leaves every frame of the store
    as it was and adds at most two frame objects (the sorted frame and the
    slice). *)
Theorem filter_time_frames_kept (σ : gmap nat frame) (df : nat) (days : Z) :
  (∀ o S, σ !! o = Some S → (Obj.filter_time df days σ).1 !! o = Some S)
  ∧ (size σ ≤ size (Obj.filter_time df days σ).1 ≤ size σ + 2)%nat.
Proof.
  split.
  { intros o S Ho. eapply lookup_weaken; [exact Ho|].
    apply filter_time_store_grows. }
  split; [apply map_subseteq_size, filter_time_store_grows|].
  unfold Obj.filter_time, Obj.index_0, Obj.sort_index, Obj.loc_dates,
    Obj.read, Obj.lift, mbind, Obj.M_bind.
  destruct (σ !! df) as [S|] eqn:Hdf; simpl; [|lia].
  destruct (index_0 S) as [t0|e]; simpl; [|lia].
  destruct (Calendar.sub_days _ _) as [start|e]; simpl; [|lia].
  rewrite Hdf.
  destruct (new_fresh σ (sort_index S)) as (o1 & -> & Ho1).
  rewrite lookup_insert_eq.
  destruct (loc_dates _ _ _) as [R|e]; simpl;
    [|rewrite map_size_insert_None by done; lia].
  rewrite map_size_insert_None by apply not_elem_of_dom, is_fresh.
  rewrite map_size_insert_None by done. lia.
Qed.

(** X8.  Results are frames of their own: two calls in a row on the same
    frame return two distinct new objects, and after the second call the
    first result and the input frame still hold what they held. *)
Theorem filter_time_results_apart
    (σ : gmap nat frame) (df : nat) (S : frame) (days1 days2 : Z) :
  σ !! df = Some S → valid_frame S → S ≠ [] →
  0 ≤ days1 → Calendar.first_midnight_day ≤ last_day S - days1 →
  0 ≤ days2 → Calendar.first_midnight_day ≤ last_day S - days2 →
  ∃ σ1 o1 R1 σ2 o2 R2,
    Obj.filter_time df days1 σ = (σ1, Ok o1)
    ∧ Obj.filter_time df days2 σ1 = (σ2, Ok o2)
    ∧ filter_time S days1 = Ok R1 ∧ filter_time S days2 = Ok R2
    ∧ o1 ≠ o2 ∧ o1 ≠ df ∧ o2 ≠ df
    ∧ σ2 !! o1 = Some R1 ∧ σ2 !! o2 = Some R2 ∧ σ2 !! df = Some S.
Proof.
  intros Hdf Hv Hne Hd1 Hs1 Hd2 Hs2.
  destruct (filter_time_run σ df S days1 Hdf)
    as (σ1 & res1 & Hrun1 & Hsub1 & Hres1).
  rewrite filter_time_returns in Hres1 by done.
  destruct Hres1 as (o1 & -> & Ho1 & Ho1').
  assert (Hdf1 : σ1 !! df = Some S) by by eapply lookup_weaken.
  destruct (filter_time_run σ1 df S days2 Hdf1)
    as (σ2 & res2 & Hrun2 & Hsub2 & Hres2).
  rewrite filter_time_returns in Hres2 by done.
  destruct Hres2 as (o2 & -> & Ho2 & Ho2').
  eexists σ1, o1, _, σ2, o2, _.
  split; [done|]. split; [done|].
  split; [by apply filter_time_returns|].
  split; [by apply filter_time_returns|].
  split; [congruence|]. split; [congruence|]. split; [congruence|].
  split; [by eapply lookup_weaken|]. split; [done|].
  by eapply lookup_weaken.
Qed.

Lemma filter_time_results_apart_witness :
  let σ : gmap nat frame := {[5%nat := daily_sample]} in
  ∃ σ1 o1 R1 σ2 o2 R2,
    Obj.filter_time 5 1 σ = (σ1, Ok o1)
    ∧ Obj.filter_time 5 7 σ1 = (σ2, Ok o2)
    ∧ filter_time daily_sample 1 = Ok R1 ∧ filter_time daily_sample 7 = Ok R2
    ∧ o1 ≠ o2 ∧ o1 ≠ 5%nat ∧ o2 ≠ 5%nat
    ∧ σ2 !! o1 = Some R1 ∧ σ2 !! o2 = Some R2
    ∧ σ2 !! 5%nat = Some daily_sample.
Proof.
  intros σ. apply (filter_time_results_apart σ 5 daily_sample 1 7);
    [apply lookup_singleton_eq|frame_facts..].
Defined.

(** * Further properties of the callbacks *)

Lemma days_lookup_None (i : Z) :
  ¬ 0 ≤ i ≤ 5 →
  (list_to_map (enumerate [1; 7; 30; 90; 365; 5 * 365]) : gmap Z Z) !! i = None.
Proof.
  intros Hi. apply not_elem_of_list_to_map_1. simpl. intros Hin.
  repeat (apply elem_of_cons in Hin as [->|Hin]; [lia|]).
  by apply not_elem_of_nil in Hin.
Qed.

Lemma slider_marks_positions (i : Z) :
  is_Some (slider_marks !! i) ↔ 0 ≤ i ≤ 6.
Proof.
  split.
  - intros [m Hm]. destruct (decide (0 ≤ i ≤ 6)) as [|Hi]; [done|].
    unfold slider_marks in Hm.
    rewrite not_elem_of_list_to_map_1 in Hm; [done|]. simpl. intros Hin.
    repeat (apply elem_of_cons in Hin as [->|Hin]; [lia|]).
    by apply not_elem_of_nil in Hin.
  - intros Hi.
    assert (Hc : i = 0 ∨ i = 1 ∨ i = 2 ∨ i = 3 ∨ i = 4 ∨ i = 5 ∨ i = 6) by lia.
    destruct Hc as [->|[->|[->|[->|[->|[->| ->]]]]]];
      by apply (bool_decide_unpack _).
Qed.

Lemma dropdown_values (opt : option_entry) :
  opt ∈ stock_options_dropdown → value opt ∈ symbol_dict.*1.
Proof.
  unfold stock_options_dropdown. intros [[symbol name] [-> Hin]]%list_elem_of_fmap.
  simpl value. apply list_elem_of_fmap. by exists (symbol, name).
Qed.

(** X9.  A ticker that is not a key of [symbol_dict] makes [filter_df]
    raise [KeyError], whatever the window index and the data; nothing is
    filtered or serialized. *)
Theorem filter_df_unknown_ticker {json : Type}
    (stock_dataframe : string → frame * frame)
    (to_json : frame → result json) (stock : string) (time_index : Z) :
  stock ∉ symbol_dict.*1 →
  filter_df stock_dataframe to_json stock time_index = Raise "KeyError".
Proof.
  intros Hstock. unfold filter_df, dict_get.
  by rewrite df_dict_unknown.
Qed.

Lemma filter_df_unknown_ticker_witness :
  filter_df (λ _, (daily_sample, intraday_sample)) (λ df, Ok df) "GOOG" 2
  = Raise "KeyError".
Proof.
  apply (filter_df_unknown_ticker _ _ "GOOG" 2).
  simpl. intros Hin.
  repeat (apply elem_of_cons in Hin as [Heq|Hin]; [discriminate Heq|]).
  by apply not_elem_of_nil in Hin.
Defined.

(** X10.  For a known ticker, a window index below 0 or above 6 makes
    [filter_df] raise [KeyError]: the day counts have no entry for it, and
    only index 6 is kept from the lookup. *)
Theorem filter_df_index_out_of_range {json : Type}
    (stock_dataframe : string → frame * frame)
    (to_json : frame → result json) (stock : string) (time_index : Z) :
  stock ∈ symbol_dict.*1 → time_index < 0 ∨ 6 < time_index →
  filter_df stock_dataframe to_json stock time_index = Raise "KeyError".
Proof.
  intros Hstock Hi. unfold filter_df, dict_get.
  rewrite df_dict_known by done.
  destruct (stock_dataframe stock) as [dff_daily dff_intraday]. simpl.
  destruct (decide (time_index = 6)) as [->|_]; [lia|].
  by rewrite days_lookup_None by lia.
Qed.

Lemma filter_df_index_out_of_range_witness :
  filter_df (λ _, (daily_sample, intraday_sample)) (λ df, Ok df) "IBM" 7
  = Raise "KeyError".
Proof.
  apply (filter_df_index_out_of_range _ _ "IBM" 7); [|lia].
  simpl. do 3 apply list_elem_of_further. apply list_elem_of_here.
Defined.

(** X11.  When the frame chosen for a known ticker is empty, the window
    indices 0 to 5 make [filter_df] raise the [IndexError] of
    [filter_time], while index 6 does not filter and serializes the empty
    daily frame. *)
Theorem filter_df_empty_frame {json : Type}
    (stock_dataframe : string → frame * frame)
    (to_json : frame → result json) (stock : string) (time_index : Z) :
  stock ∈ symbol_dict.*1 → 0 ≤ time_index ≤ 6 →
  (if decide (time_index ≤ 2) then (stock_dataframe stock).2
   else (stock_dataframe stock).1) = [] →
  filter_df stock_dataframe to_json stock time_index
  = if decide (time_index = 6) then to_json [] else Raise "IndexError".
Proof.
  intros Hstock Hi Hempty. unfold filter_df, dict_get.
  rewrite df_dict_known by done.
  destruct (stock_dataframe stock) as [dff_daily dff_intraday]. simpl in *.
  rewrite Hempty.
  destruct (decide (time_index = 6)) as [->|Hne]; [done|].
  by rewrite days_lookup by lia.
Qed.

Lemma filter_df_empty_frame_witness :
  filter_df (λ _, (daily_sample, [])) (λ df, Ok df) "AAPL" 0
  = Raise "IndexError".
Proof.
  apply (filter_df_empty_frame (λ _, (daily_sample, [])) (λ df, Ok df)
           "AAPL" 0); [|lia|done].
  simpl. apply list_elem_of_here.
Defined.

(** X12.  Every selection the controls offer is served: for every value
    of the ticker dropdown and every position of the time slider,
    [filter_df] finds the two frames of the ticker and the day count of the
    position, so its result is the serialization of one of the two frames
    or of a [filter_time] of it, and an error can only come from
    [filter_time] or from the serializer. *)
Theorem filter_df_serves_controls {json : Type}
    (stock_dataframe : string → frame * frame)
    (to_json : frame → result json) (opt : option_entry) (time_index : Z) :
  opt ∈ stock_options_dropdown → is_Some (slider_marks !! time_index) →
  ∃ dff, (dff = (stock_dataframe (value opt)).1
          ∨ dff = (stock_dataframe (value opt)).2)
    ∧ (filter_df stock_dataframe to_json (value opt) time_index = to_json dff
       ∨ ∃ days, 0 < days
           ∧ filter_df stock_dataframe to_json (value opt) time_index
             = filter_time dff days ≫= to_json).
Proof.
  intros Hopt%dropdown_values Hi%slider_marks_positions.
  unfold filter_df, dict_get. rewrite df_dict_known by done.
  destruct (stock_dataframe (value opt)) as [dff_daily dff_intraday]. simpl.
  exists (if decide (time_index ≤ 2) then dff_intraday else dff_daily).
  split; [destruct (decide _); auto|].
  destruct (decide (time_index = 6)) as [->|Hne]; [by left|]. right.
  exists (window_days_spec time_index). rewrite days_lookup by lia. simpl.
  split.
  - assert (Hc : time_index = 0 ∨ time_index = 1 ∨ time_index = 2
                 ∨ time_index = 3 ∨ time_index = 4 ∨ time_index = 5) by lia.
    destruct Hc as [->|[->|[->|[->|[->| ->]]]]]; done.
  - by destruct (filter_time _ _).
Qed.

Lemma filter_df_serves_controls_witness :
  let stock_dataframe := λ _ : string, (daily_sample, intraday_sample) in
  let to_json := λ df : frame, Ok df in
  ∃ dff, (dff = daily_sample ∨ dff = intraday_sample)
    ∧ (filter_df stock_dataframe to_json "NVDA" 4 = to_json dff
       ∨ ∃ days, 0 < days
           ∧ filter_df stock_dataframe to_json "NVDA" 4
             = filter_time dff days ≫= to_json).
Proof.
  intros stock_dataframe to_json.
  apply (filter_df_serves_controls stock_dataframe to_json
           (Option_entry "Nvidia" "NVDA") 4).
  - unfold stock_options_dropdown, symbol_dict. simpl.
    apply list_elem_of_further, list_elem_of_here.
  - by eexists.
Defined.

(** * Further properties of the labels *)

Section labels_more.
Import Format.
Local Open Scope Q_scope.

Lemma tenths_comp x y : x == y → tenths x = tenths y.
Proof.
  intros Hxy. unfold tenths, round_half_even. cbv zeta.
  assert (H10 : x * 10 == y * 10) by (apply Qmult_comp; [done|reflexivity]).
  rewrite (Qfloor_comp _ _ H10).
  assert (Hc : Qcompare (x * 10 - inject_Z (Qfloor (y * 10))) (1 # 2)
               = Qcompare (y * 10 - inject_Z (Qfloor (y * 10))) (1 # 2)).
  { apply Qcompare_comp; [|reflexivity].
    apply Qplus_comp; [done|reflexivity]. }
  by rewrite Hc.
Qed.

(** The label is a function of the value, not of how the fraction is
    written. *)
Lemma format_1f_comp x y : x == y → format_1f x = format_1f y.
Proof.
  intros Hxy. unfold format_1f. cbv zeta.
  rewrite (tenths_comp x y Hxy).
  by rewrite (Qleb_comp 0 0 (Qeq_refl 0) x y Hxy).
Qed.

(** Rounding keeps the order. *)
Lemma round_half_even_mono x y :
  x <= y → (round_half_even x ≤ round_half_even y)%Z.
Proof.
  intros Hxy.
  pose proof (round_half_even_between x) as [Hx1 Hx2].
  pose proof (round_half_even_between y) as [Hy1 Hy2].
  pose proof (Qfloor_resp_le x y Hxy) as Hfl.
  destruct (decide (Qfloor x = Qfloor y)) as [Heq|Hne]; [|lia].
  clear Hx1 Hx2 Hy1 Hy2 Hfl. unfold round_half_even. cbv zeta.
  rewrite Heq.
  destruct (Qcompare_spec (x - inject_Z (Qfloor y)) (1 # 2)) as [Hcx|Hcx|Hcx];
    destruct (Qcompare_spec (y - inject_Z (Qfloor y)) (1 # 2)) as [Hcy|Hcy|Hcy];
    try destruct (Z.even _); try lia; exfalso; lra.
Qed.

Lemma tenths_mono x y : x <= y → (tenths x ≤ tenths y)%Z.
Proof. intros Hxy. apply round_half_even_mono. lra. Qed.

Lemma tenths_exact (n : Z) : tenths (n # 10) = n.
Proof.
  assert (Hn : (n # 10) * 10 == inject_Z n).
  { unfold Qeq. simpl. lia. }
  unfold tenths, round_half_even. cbv zeta.
  rewrite (Qfloor_comp _ _ Hn), Qfloor_Z.
  assert (Hc : Qcompare ((n # 10) * 10 - inject_Z n) (1 # 2) = Lt).
  { apply (proj1 (Qlt_alt _ _)). revert Hn. generalize (n # 10).
    intros q Hq. lra. }
  by rewrite Hc.
Qed.

(** The extremes of a column are values of the column. *)
Lemma foldl_Qmax_elem (col : list Q) x : foldl Qmax x col ∈ x :: col.
Proof.
  revert x. induction col as [|a col IH]; intros x; simpl.
  - apply list_elem_of_here.
  - specialize (IH (Qmax x a)).
    apply elem_of_cons in IH as [IH|IH]; [|by do 2 apply list_elem_of_further].
    rewrite IH. unfold Qmax, GenericMinMax.gmax.
    destruct (Qcompare x a);
      [apply list_elem_of_here
      |apply list_elem_of_further, list_elem_of_here
      |apply list_elem_of_here].
Qed.

Lemma foldl_Qmin_elem (col : list Q) x : foldl Qmin x col ∈ x :: col.
Proof.
  revert x. induction col as [|a col IH]; intros x; simpl.
  - apply list_elem_of_here.
  - specialize (IH (Qmin x a)).
    apply elem_of_cons in IH as [IH|IH]; [|by do 2 apply list_elem_of_further].
    rewrite IH. unfold Qmin, GenericMinMax.gmin.
    destruct (Qcompare x a);
      [apply list_elem_of_here
      |apply list_elem_of_here
      |apply list_elem_of_further, list_elem_of_here].
Qed.

Lemma series_max_elem (col : list Q) mx :
  series_max col = Some mx → mx ∈ col ∧ ∀ y, y ∈ col → y <= mx.
Proof.
  destruct col as [|x col]; [done|]. intros [= <-]. split.
  - apply foldl_Qmax_elem.
  - intros y. apply foldl_Qmax_upper.
Qed.

Lemma series_min_elem (col : list Q) mn :
  series_min col = Some mn → mn ∈ col ∧ ∀ y, y ∈ col → mn <= y.
Proof.
  destruct col as [|x col]; [done|]. intros [= <-]. split.
  - apply foldl_Qmin_elem.
  - intros y. apply foldl_Qmin_lower.
Qed.

(** The labels of a column do not depend on the order of its values. *)
Lemma format_max_perm (col1 col2 : list Q) :
  col1 ≡ₚ col2 →
  format_float (series_max col1) = format_float (series_max col2)
  ∧ format_float (series_min col1) = format_float (series_min col2).
Proof.
  intros Hperm.
  destruct col1 as [|x1 col1].
  { apply Permutation_nil_l in Hperm. by subst. }
  destruct col2 as [|x2 col2].
  { by apply Permutation_nil_r in Hperm. }
  destruct (series_max_elem (x1 :: col1) _ eq_refl) as [Hin1 Hup1].
  destruct (series_max_elem (x2 :: col2) _ eq_refl) as [Hin2 Hup2].
  destruct (series_min_elem (x1 :: col1) _ eq_refl) as [Hjn1 Hlo1].
  destruct (series_min_elem (x2 :: col2) _ eq_refl) as [Hjn2 Hlo2].
  simpl. split; apply format_1f_comp, Qle_antisym.
  - apply Hup2. by rewrite <- Hperm.
  - apply Hup1. by rewrite Hperm.
  - apply Hlo1. by rewrite Hperm.
  - apply Hlo2. by rewrite <- Hperm.
Qed.

End labels_more.

Lemma column_cases (ohlc : string) :
  (ohlc ∈ ["open"; "high"; "low"; "close"; "volume"]
   ∧ (∃ col, column ohlc = Ok col))
  ∨ ((ohlc ∉ ["open"; "high"; "low"; "close"; "volume"])
     ∧ column ohlc = Raise "KeyError").
Proof.
  unfold column.
  repeat (destruct (decide _) as [->|?];
          [left; split; [|by eexists];
           repeat first [apply list_elem_of_here|apply list_elem_of_further]
          |]).
  right. split; [|done]. intros Hin.
  repeat (apply elem_of_cons in Hin as [->|Hin]; [done|]).
  by apply not_elem_of_nil in Hin.
Qed.

(** X13.  Once the JSON decodes, [highest_lowest_value] raises [KeyError]
    exactly for a field that is not one of the five columns open, high,
    low, close and volume; for those it returns two labels. *)
Theorem highest_lowest_value_KeyError {json : Type}
    (read_json : json → result frame) (json_df : json) (ohlc : string)
    (dff : frame) :
  read_json json_df = Ok dff →
  (highest_lowest_value read_json json_df ohlc = Raise "KeyError"
   ↔ ohlc ∉ ["open"; "high"; "low"; "close"; "volume"])
  ∧ (ohlc ∈ ["open"; "high"; "low"; "close"; "volume"] →
     ∃ hi lo, highest_lowest_value read_json json_df ohlc = Ok (hi, lo)).
Proof.
  intros Hread. unfold highest_lowest_value. rewrite Hread. simpl.
  destruct (column_cases ohlc) as [[Hin [col ->]]|[Hout ->]]; simpl.
  - split; [split; [done|tauto]|]. intros _. by eexists _, _.
  - split; [tauto|]. tauto.
Qed.

Lemma highest_lowest_value_KeyError_witness :
  let read_json := λ _ : unit, Ok daily_sample in
  (highest_lowest_value read_json () "adjusted" = Raise "KeyError"
   ↔ "adjusted" ∉ ["open"; "high"; "low"; "close"; "volume"])
  ∧ ("adjusted" ∈ ["open"; "high"; "low"; "close"; "volume"] →
     ∃ hi lo, highest_lowest_value read_json () "adjusted" = Ok (hi, lo)).
Proof.
  intros read_json.
  by apply (highest_lowest_value_KeyError read_json () "adjusted" daily_sample).
Defined.

(** X14.  On a dataset without rows both labels read nan $, for each of
    the five columns: the callback does not fail, and the labels show no
    number. *)
Theorem highest_lowest_value_empty {json : Type}
    (read_json : json → result frame) (json_df : json) (ohlc : string) :
  read_json json_df = Ok [] →
  ohlc ∈ ["open"; "high"; "low"; "close"; "volume"] →
  highest_lowest_value read_json json_df ohlc = Ok ("nan $", "nan $")
  ∧ Format.label_value "nan $" = None.
Proof.
  intros Hread Hin. split; [|done].
  unfold highest_lowest_value. rewrite Hread. simpl.
  destruct (column_cases ohlc) as [[_ [col ->]]|[Hout _]]; [done|tauto].
Qed.

Lemma highest_lowest_value_empty_witness :
  highest_lowest_value (λ _ : unit, Ok []) () "high" = Ok ("nan $", "nan $")
  ∧ Format.label_value "nan $" = None.
Proof.
  apply (highest_lowest_value_empty (λ _ : unit, Ok []) () "high"); [done|].
  apply list_elem_of_further, list_elem_of_here.
Defined.

(** X15.  On a non-empty dataset the number in the lowest-value label is
    never above the number in the highest-value label: rounding to one
    decimal keeps the order of the two extremes. *)
Theorem highest_lowest_value_ordered {json : Type}
    (read_json : json → result frame) (json_df : json) (ohlc : string)
    (dff : frame) (col : row → Q) :
  read_json json_df = Ok dff → dff ≠ [] → column ohlc = Ok col →
  ∃ hi lo vhi vlo,
    highest_lowest_value read_json json_df ohlc = Ok (hi, lo)
    ∧ Format.label_value hi = Some vhi
    ∧ Format.label_value lo = Some vlo
    ∧ (vlo <= vhi)%Q.
Proof.
  intros Hread Hne Hcol.
  destruct dff as [|r0 dff]; [done|].
  destruct (series_max_elem (col r0 :: (col <$> dff)) _ eq_refl) as [_ Hup].
  destruct (series_min_elem (col r0 :: (col <$> dff)) _ eq_refl) as [_ Hlow].
  set (mx := foldl Qmax (col r0) (col <$> dff)) in *.
  set (mn := foldl Qmin (col r0) (col <$> dff)) in *.
  exists (Format.format_1f mx +:+ " $"), (Format.format_1f mn +:+ " $"),
    (Format.tenths mx # 10), (Format.tenths mn # 10).
  split; [by unfold highest_lowest_value; rewrite Hread, Hcol|].
  split; [apply label_value_format|]. split; [apply label_value_format|].
  assert (Hle : (mn <= mx)%Q).
  { eapply Qle_trans; [apply (Hlow (col r0))|apply (Hup (col r0))];
      apply list_elem_of_here. }
  apply tenths_mono in Hle. unfold Qle. simpl. lia.
Qed.

Lemma highest_lowest_value_ordered_witness :
  let read_json := λ _ : unit, Ok intraday_sample in
  ∃ hi lo vhi vlo,
    highest_lowest_value read_json () "open" = Ok (hi, lo)
    ∧ Format.label_value hi = Some vhi
    ∧ Format.label_value lo = Some vlo
    ∧ (vlo <= vhi)%Q.
Proof.
  intros read_json.
  by apply (highest_lowest_value_ordered read_json () "open"
              intraday_sample open).
Defined.

(** X16.  On a non-empty dataset each label is the formatted value of a
    row of the dataset: the highest-value label that of a row no other row
    exceeds, the lowest-value label that of a row no other row falls
    below. *)
Theorem highest_lowest_value_attained {json : Type}
    (read_json : json → result frame) (json_df : json) (ohlc : string)
    (dff : frame) (col : row → Q) :
  read_json json_df = Ok dff → dff ≠ [] → column ohlc = Ok col →
  ∃ rmax rmin,
    rmax ∈ dff ∧ rmin ∈ dff
    ∧ highest_lowest_value read_json json_df ohlc
      = Ok (Format.format_1f (col rmax) +:+ " $",
            Format.format_1f (col rmin) +:+ " $")
    ∧ ∀ r, r ∈ dff → (col rmin <= col r <= col rmax)%Q.
Proof.
  intros Hread Hne Hcol.
  destruct dff as [|r0 dff]; [done|].
  destruct (series_max_elem (col r0 :: (col <$> dff)) _ eq_refl) as [Hmx Hup].
  destruct (series_min_elem (col r0 :: (col <$> dff)) _ eq_refl) as [Hmn Hlow].
  change (col r0 :: (col <$> dff)) with (col <$> r0 :: dff) in Hmx, Hmn.
  apply list_elem_of_fmap in Hmx as (rmax & Hmx & Hrmax).
  apply list_elem_of_fmap in Hmn as (rmin & Hmn & Hrmin).
  exists rmax, rmin. split; [done|]. split; [done|]. split.
  - rewrite <- Hmx, <- Hmn.
    by unfold highest_lowest_value; rewrite Hread, Hcol.
  - intros r Hr. rewrite <- Hmx, <- Hmn.
    split; [apply Hlow|apply Hup];
      by apply (list_elem_of_fmap_2 col (r0 :: dff)).
Qed.

Lemma highest_lowest_value_attained_witness :
  let read_json := λ _ : unit, Ok daily_sample in
  ∃ rmax rmin,
    rmax ∈ daily_sample ∧ rmin ∈ daily_sample
    ∧ highest_lowest_value read_json () "close"
      = Ok (Format.format_1f (close rmax) +:+ " $",
            Format.format_1f (close rmin) +:+ " $")
    ∧ ∀ r, r ∈ daily_sample → (close rmin <= close r <= close rmax)%Q.
Proof.
  intros read_json.
  by apply (highest_lowest_value_attained read_json () "close"
              daily_sample close).
Defined.

(** X17.  The labels do not depend on the order of the rows: two datasets
    with the same rows give the same result, labels or error. *)
Theorem highest_lowest_value_row_order {json : Type}
    (read_json : json → result frame) (json1 json2 : json) (ohlc : string)
    (dff1 dff2 : frame) :
  read_json json1 = Ok dff1 → read_json json2 = Ok dff2 → dff1 ≡ₚ dff2 →
  highest_lowest_value read_json json1 ohlc
  = highest_lowest_value read_json json2 ohlc.
Proof.
  intros H1 H2 Hperm. unfold highest_lowest_value. rewrite H1, H2. simpl.
  destruct (column ohlc) as [col|e]; [simpl|done].
  destruct (format_max_perm (col <$> dff1) (col <$> dff2)) as [-> ->];
    [by apply fmap_Permutation|done].
Qed.

Lemma highest_lowest_value_row_order_witness :
  let read_json := λ b : bool,
    Ok (if b then daily_sample else reverse daily_sample) in
  highest_lowest_value read_json true "low"
  = highest_lowest_value read_json false "low".
Proof.
  intros read_json.
  apply (highest_lowest_value_row_order read_json true false "low"
           daily_sample (reverse daily_sample)); [done..|].
  symmetry. apply reverse_Permutation.
Defined.

(** * The chart callback and the field selector *)

Lemma symbol_dict_lookup (stock : string) :
  stock ∈ symbol_dict.*1 →
  ∃ name, (stock, name) ∈ symbol_dict
        ∧ (list_to_map symbol_dict : gmap string string) !! stock = Some name.
Proof.
  intros Hin. unfold symbol_dict in *. simpl in Hin.
  repeat (apply elem_of_cons in Hin as [->|Hin];
          [eexists; split; [|by vm_compute];
           repeat first [apply list_elem_of_here|apply list_elem_of_further]|]).
  by apply not_elem_of_nil in Hin.
Qed.

Lemma filter_df_Ok_known {json : Type}
    (stock_dataframe : string → frame * frame)
    (to_json : frame → result json) (stock : string) (time_index : Z) j :
  filter_df stock_dataframe to_json stock time_index = Ok j →
  stock ∈ symbol_dict.*1.
Proof.
  intros Hj. destruct (decide (stock ∈ symbol_dict.*1)) as [|Hout]; [done|].
  unfold filter_df, dict_get in Hj. by rewrite df_dict_unknown in Hj.
Qed.

(** X18.  For a ticker that is not a key of [symbol_dict], [update_graph]
    raises [KeyError] as soon as the JSON decodes, whatever the field: the
    title is looked up before the chart is drawn, and [px.line] is not
    reached. *)
Theorem update_graph_unknown_ticker {json figure : Type}
    (read_json : json → result frame)
    (px_line : frame → list Z → string → list (string * string) → string
               → result figure)
    (json_df : json) (stock ohlc : string) (dff : frame) :
  read_json json_df = Ok dff → stock ∉ symbol_dict.*1 →
  update_graph read_json px_line json_df stock ohlc = Raise "KeyError".
Proof.
  intros Hread Hstock. unfold update_graph, dict_get. rewrite Hread.
  unfold mbind, result_mbind, result_bind. cbv beta iota zeta.
  by rewrite not_elem_of_list_to_map_1.
Qed.

Lemma update_graph_unknown_ticker_witness :
  update_graph (λ _ : unit, Ok daily_sample)
    (λ dff x y labels title, Ok (title, x)) () "MSFT" "close"
  = Raise "KeyError".
Proof.
  apply (update_graph_unknown_ticker _ _ () "MSFT" "close" daily_sample);
    [done|].
  simpl. intros Hin.
  repeat (apply elem_of_cons in Hin as [Heq|Hin]; [discriminate Heq|]).
  by apply not_elem_of_nil in Hin.
Defined.

(** X19.  The two callbacks agree on the tickers: whenever [filter_df]
    returned a dataset for a ticker, [update_graph] finds the title of that
    ticker, the company name of [symbol_dict], and draws the decoded
    dataset with the index as x values, the selected field as y column and
    the axis label of the close column. *)
Theorem update_graph_after_filter_df {json figure : Type}
    (stock_dataframe : string → frame * frame)
    (to_json : frame → result json)
    (read_json : json → result frame)
    (px_line : frame → list Z → string → list (string * string) → string
               → result figure)
    (stock ohlc : string) (time_index : Z) (json_df : json) (dff : frame) :
  filter_df stock_dataframe to_json stock time_index = Ok json_df →
  read_json json_df = Ok dff →
  ∃ name, (stock, name) ∈ symbol_dict
    ∧ update_graph read_json px_line json_df stock ohlc
      = px_line dff (timestamp <$> dff) ohlc
          [("close", "Stock value (us-$)")] name.
Proof.
  intros Hj%filter_df_Ok_known Hread.
  destruct (symbol_dict_lookup stock Hj) as (name & Hin & Hlook).
  exists name. split; [done|].
  unfold update_graph, dict_get. rewrite Hread.
  unfold mbind, result_mbind, result_bind. cbv beta iota zeta.
  by rewrite Hlook.
Qed.

Lemma update_graph_after_filter_df_witness :
  let stock_dataframe := λ _ : string, (daily_sample, intraday_sample) in
  let px_line := λ (dff : frame) (x : list Z) (y : string)
                   (labels : list (string * string)) (title : string),
                   Ok (title, y, x) in
  ∃ name, ("TSLA", name) ∈ symbol_dict
    ∧ update_graph (λ df : frame, Ok df) px_line daily_sample "TSLA" "high"
      = px_line daily_sample (timestamp <$> daily_sample) "high"
          [("close", "Stock value (us-$)")] name.
Proof.
  intros stock_dataframe px_line.
  by apply (update_graph_after_filter_df stock_dataframe (λ df, Ok df)
              (λ df, Ok df) px_line "TSLA" "high" 6 daily_sample daily_sample).
Defined.

(** X20.  Every entry of the field selector is served: its value names
    one of the four price columns, its label is the value capitalized, and
    [highest_lowest_value] returns two labels for it as soon as the JSON
    decodes. *)
Theorem ohlc_options_served {json : Type}
    (read_json : json → result frame) (json_df : json) (dff : frame)
    (opt : option_entry) :
  opt ∈ ohlc_options → read_json json_df = Ok dff →
  label opt = capitalize (value opt)
  ∧ (∃ col, column (value opt) = Ok col ∧ col ∈ [open; high; low; close])
  ∧ ∃ hi lo, highest_lowest_value read_json json_df (value opt) = Ok (hi, lo).
Proof.
  intros Hopt Hread. unfold ohlc_options in Hopt.
  apply list_elem_of_fmap in Hopt as (option & -> & Hin).
  split; [done|]. simpl value.
  assert (Hcol : ∃ col, column option = Ok col ∧ col ∈ [open; high; low; close]).
  { repeat (apply elem_of_cons in Hin as [->|Hin];
            [eexists; split; [reflexivity|];
             repeat first [apply list_elem_of_here|apply list_elem_of_further]|]).
    by apply not_elem_of_nil in Hin. }
  split; [done|]. destruct Hcol as (col & Hcol & _).
  unfold highest_lowest_value. rewrite Hread, Hcol. by eexists _, _.
Qed.

Lemma ohlc_options_served_witness :
  let read_json := λ _ : unit, Ok daily_sample in
  let opt := Option_entry "Low" "low" in
  label opt = capitalize (value opt)
  ∧ (∃ col, column (value opt) = Ok col ∧ col ∈ [open; high; low; close])
  ∧ ∃ hi lo, highest_lowest_value read_json () (value opt) = Ok (hi, lo).
Proof.
  intros read_json opt.
  apply (ohlc_options_served read_json () daily_sample opt); [|done].
  unfold ohlc_options. simpl.
  do 2 apply list_elem_of_further. apply list_elem_of_here.
Defined.

(** * The JSON round trip *)

Section json_facts.
Import Json.
Implicit Types (df : frame) (r : row) (l : list (string * Q)).

Lemma ms_of_key_of_ms (ms : Z) : ms_of_key (key_of_ms ms) = Some ms.
Proof.
  unfold ms_of_key, key_of_ms. rewrite NilZero.isi.
  - simpl. by rewrite DecimalZ.of_to.
  - destruct ms; simpl; [done|..]; intros [= H];
      by apply Unsigned.to_uint_nonnil in H.
  - destruct ms; simpl; [done|..]; intros [= H];
      by apply Unsigned.to_uint_nonnil in H.
Qed.

Lemma key_of_ms_inj (m1 m2 : Z) : key_of_ms m1 = key_of_ms m2 → m1 = m2.
Proof.
  intros Heq. apply (f_equal ms_of_key) in Heq.
  rewrite !ms_of_key_of_ms in Heq. congruence.
Qed.

(** A whole number of milliseconds is spelled by its key. *)
Lemma key_timestamp_whole (t : Z) :
  t `mod` NS_PER_MS = 0 → is_Timestamp t →
  key_timestamp (key_of_ms (epoch_ms t)) = Ok t.
Proof.
  intros Hms Ht. unfold key_timestamp. rewrite ms_of_key_of_ms.
  assert (Heq : epoch_ms t * NS_PER_MS = t).
  { unfold epoch_ms, NS_PER_MS in *. Z.to_euclidean_division_equations. lia. }
  rewrite Heq. by rewrite decide_True.
Qed.

Lemma whole_ms_inj (t1 t2 : Z) :
  t1 `mod` NS_PER_MS = 0 → t2 `mod` NS_PER_MS = 0 →
  epoch_ms t1 = epoch_ms t2 → t1 = t2.
Proof.
  unfold epoch_ms, NS_PER_MS. Z.to_euclidean_division_equations. lia.
Qed.

(** Ten decimal places are within half a unit of the tenth place. *)
Lemma decimal_10_near (x : Q) :
  (- (1 # 10000000000) <= decimal_10 x - x <= 1 # 10000000000)%Q.
Proof.
  pose proof (round_half_even_near (x * inject_Z 10000000000)) as H.
  unfold decimal_10.
  set (n := Format.round_half_even (x * inject_Z 10000000000)) in *.
  pose proof (Qmake_Qdiv n 10000000000) as E. unfold Qdiv in E.
  change (/ inject_Z (Z.pos 10000000000))%Q with (1 # 10000000000)%Q in E.
  change (inject_Z 10000000000) with (10000000000 # 1)%Q in H.
  revert E. generalize (n # 10000000000)%Q. intros q E. lra.
Qed.

Lemma last_value_None k l : k ∉ l.*1 → last_value k l = None.
Proof.
  induction l as [|[k' v] l IH]; [done|]. simpl. intros Hk.
  apply not_elem_of_cons in Hk as [Hne Hk]. rewrite IH by done.
  by rewrite decide_False.
Qed.

Lemma filter_other_keys k l :
  k ∉ l.*1 → filter (λ kv : string * Q, kv.1 ≠ k) l = l.
Proof.
  induction l as [|[k' v] l IH]; [done|]. simpl. intros Hk.
  apply not_elem_of_cons in Hk as [Hne Hk].
  rewrite filter_cons_True by (simpl; congruence). by rewrite IH.
Qed.

(** An object without repeated keys is kept as it is. *)
Lemma dict_members_NoDup l : NoDup l.*1 → dict_members l = l.
Proof.
  induction l as [|[k v] l IH]; [done|]. simpl. intros Hnd.
  apply NoDup_cons in Hnd as [Hk Hnd].
  rewrite last_value_None by done. simpl. f_equal.
  rewrite IH by done. by apply filter_other_keys.
Qed.

Lemma column_object_keys df (cell : row → Q) :
  (column_object df cell).*1
  = (λ r, key_of_ms (epoch_ms (timestamp r))) <$> df.
Proof. unfold column_object. by rewrite <- list_fmap_compose. Qed.

(** With a unique index in whole milliseconds no key is written twice. *)
Lemma column_object_NoDup df (cell : row → Q) :
  NoDup (timestamp <$> df) →
  Forall (λ r, timestamp r `mod` NS_PER_MS = 0) df →
  NoDup (column_object df cell).*1.
Proof.
  intros Hnd Hms. rewrite column_object_keys.
  apply NoDup_fmap_2_strong; [|by apply NoDup_fmap_1 in Hnd].
  rewrite Forall_forall in Hms.
  intros r1 r2 H1 H2 Hkey. apply key_of_ms_inj in Hkey.
  apply (unique_index_inj df); [done..|].
  apply whole_ms_inj; auto.
Qed.

(** The five column objects of a frame are read back row by row. *)
Lemma read_rows_columns df (c1 c2 c3 c4 c5 : row → Q) :
  Forall (λ r, timestamp r `mod` NS_PER_MS = 0 ∧ is_Timestamp (timestamp r))
    df →
  read_rows (column_object df c1) (column_object df c2)
    (column_object df c3) (column_object df c4) (column_object df c5)
  = Ok ((λ r, Row (timestamp r) (c1 r) (c2 r) (c3 r) (c4 r) (Qfloor (c5 r)))
          <$> df).
Proof.
  induction 1 as [|r df [Hms Ht] _ IH]; [done|].
  unfold column_object in *. rewrite !fmap_cons. simpl.
  rewrite decide_True by done.
  rewrite key_timestamp_whole by done. simpl. by rewrite IH.
Qed.

Lemma round_trip_row_Timestamp r :
  round_trip_row r →
  timestamp r `mod` NS_PER_MS = 0 ∧ is_Timestamp (timestamp r).
Proof.
  intros (Hms & [Hlo Hhi] & _). split; [done|]. split; [|done].
  rewrite Timestamp_min_eq. lia.
Qed.
End json_facts.

(** C9, as amended.  For every dataset with a unique index whose index
    entries are whole milliseconds, not before 1971-01-01, and whose prices
    are below 10^15 in size (every dataset [filter_df] produces from files
    stamped to the second or the minute is one), [to_json] returns a text
    with the five field names, [read_json] of that text returns a dataset
    with as many rows in the same order, and each row comes back with the
    same timestamp, the same volume and each price as written with ten
    decimal places, so within 10^-10 of the price it had. *)
Theorem json_round_trip (d : frame) :
  NoDup (timestamp <$> d) → Forall round_trip_row d →
  ∃ j d',
    Json.to_json d = Ok j
    ∧ j.*1 = ["open"; "high"; "low"; "close"; "volume"]
    ∧ Json.read_json j = Ok d'
    ∧ Forall2 reads_back d d'.
Proof.
  intros Hnd Hrows.
  assert (Hts : Forall (λ r, timestamp r `mod` Json.NS_PER_MS = 0
                             ∧ is_Timestamp (timestamp r)) d).
  { eapply Forall_impl; [exact Hrows|]. apply round_trip_row_Timestamp. }
  assert (Hms : Forall (λ r, timestamp r `mod` Json.NS_PER_MS = 0) d).
  { eapply Forall_impl; [exact Hts|]. by intros r [? _]. }
  eexists _, _. unfold Json.to_json. rewrite decide_True by done.
  split; [done|]. split; [done|]. split.
  - unfold Json.read_json, Json.member.
    repeat (rewrite decide_False by done).
    repeat (rewrite decide_True by done; simpl;
            repeat (rewrite decide_False by done)).
    rewrite !dict_members_NoDup by by apply column_object_NoDup.
    by apply read_rows_columns.
  - apply Forall2_fmap_r, Forall_Forall2_diag.
    apply Forall_forall. intros r _. unfold reads_back.
    cbn [timestamp volume open high low close].
    split; [done|]. split; [apply Qfloor_Z|].
    repeat constructor; apply decimal_10_near.
Qed.

Lemma json_round_trip_witness :
  ∃ j d',
    Json.to_json intraday_sample = Ok j
    ∧ j.*1 = ["open"; "high"; "low"; "close"; "volume"]
    ∧ Json.read_json j = Ok d'
    ∧ Forall2 reads_back intraday_sample d'.
Proof.
  apply (json_round_trip intraday_sample).
  - by apply (bool_decide_unpack _).
  - unfold intraday_sample.
    repeat (apply Forall_cons_2;
            [split; [reflexivity|split; [split; vm_compute; discriminate|]];
             repeat (apply Forall_cons_2; [split; vm_compute; discriminate|]);
             apply Forall_nil_2|]).
    apply Forall_nil_2.
Defined.

(** C9 as stated fails on a dataset stamped below the millisecond or
    priced beyond the tenth decimal.  The row is stamped one nanosecond
    after 2022-01-03 20:00 and closes at 1 + 2^-40; [filter_df] serializes
    it at the Max position, and what is read back is stamped at 20:00 and
    closes at 1. *)
Lemma json_round_trip_counterexample :
  let r := Row 1641240000000000001 30 30 30
             (1099511627777 # 1099511627776) 5 in
  let r' := Row 1641240000000000000
              (300000000000 # 10000000000) (300000000000 # 10000000000)
              (300000000000 # 10000000000) (10000000000 # 10000000000) 5 in
  let stock_dataframe := λ _ : string, ([r], [r]) in
  (∃ j, filter_df stock_dataframe Json.to_json "AAPL" 6 = Ok j
        ∧ Json.read_json j = Ok [r'])
  ∧ timestamp r' ≠ timestamp r
  ∧ ¬ (close r' == close r)%Q.
Proof.
  intros r r' stock_dataframe. split; [|split; [done|by vm_compute]].
  exists (match Json.to_json [r] with Ok j => j | Raise _ => [] end).
  split; by vm_compute.
Qed.
